(** * gimme/helpers.py: the authentication gate and the access grantor

    A shallow embedding of [src/gimme/helpers.py].  The module holds three
    pieces of code:

    - [project_from_field], which turns the free-form project field of the
      form into a project ID;
    - [login_required], the route decorator that resolves the identity of the
      caller, caches it in the session and checks the domain against the
      configured allowlist;
    - [add_conditional_binding], which reads the IAM policy of a project,
      appends a binding that expires after the requested period and writes
      the policy back.

    The code is Python 2: dictionaries are finite maps ([gmap]), subscripting
    a dictionary with an absent key raises [KeyError], and an exception that
    nothing catches leaves the function at once.  Effects (the session, the
    flashed messages, the requests sent to Google, the clock) are threaded
    through an explicit state. *)

From Stdlib Require Import ZArith Ascii String.
From stdpp Require Import gmap strings list fin_maps.

Local Open Scope string_scope.
Local Open Scope list_scope.
Local Open Scope Z_scope.

(** ** JSON values, as [resp.json()] returns them *)

(** Python's [json] module gives [None], [bool], numbers, [unicode], [list]
    and [dict].  Numbers are integers here; no code path of the module looks
    inside a number. *)
#[warnings="-register-all"]
Inductive json : Type :=
  | JNull
  | JBool (b : bool)
  | JNum (n : Z)
  | JStr (s : string)
  | JArr (l : list json)
  | JObj (m : gmap string json).

(** ** Exceptions and results *)

Inductive exn : Type :=
  | KeyError (key : string)
  | TypeError
  | AttributeError
  | ValueError
  | OverflowError.

(** A pure Python expression either has a value or raises. *)
Inductive res (A : Type) : Type :=
  | Val (a : A)
  | Exc (e : exn).
Arguments Val {A} a.
Arguments Exc {A} e.

(** [x[k]] for a string key [k]: only a dictionary can be subscripted by a
    string; an absent key raises [KeyError]. *)
Definition getitem (x : json) (k : string) : res json :=
  match x with
  | JObj m => match m !! k with
              | Some v => Val v
              | None => Exc (KeyError k)
              end
  | _ => Exc TypeError
  end.

(** [x.get(k, None)]: a method of dictionaries only. *)
Definition get_or_none (x : json) (k : string) : res json :=
  match x with
  | JObj m => Val (default JNull (m !! k))
  | _ => Exc AttributeError
  end.

(** [x is not None]. *)
Definition is_not_none (x : json) : bool :=
  match x with
  | JNull => false
  | _ => true
  end.

(** The characters of a string, each as a one-character string. *)
Fixpoint chars (s : string) : list string :=
  match s with
  | EmptyString => []
  | String c s' => String c EmptyString :: chars s'
  end.

(** [for e in x]: a list yields its items, a string its characters, a
    dictionary its keys; nothing else can be iterated. *)
Definition py_iter (x : json) : res (list json) :=
  match x with
  | JArr l => Val l
  | JStr s => Val (JStr <$> chars s)
  | JObj m => Val (JStr <$> (map_to_list m).*1)
  | _ => Exc TypeError
  end.

(** [x == s] for a string literal [s]. *)
Definition eq_str (x : json) (s : string) : bool :=
  match x with
  | JStr t => bool_decide (t = s)
  | _ => false
  end.

(** [x.append]: a method of lists only.  Looking the method up raises on
    anything else; calling it puts the argument at the end of the list. *)
Definition append (x : json) : res (json -> json) :=
  match x with
  | JArr l => Val (fun v => JArr (l ++ [v]))
  | _ => Exc AttributeError
  end.

(** The dictionary [x] once the list it holds under [k] has become [v]: the
    list is mutated in place, and the dictionary sees it. *)
Definition with_item (x : json) (k : string) (v : json) : json :=
  match x with
  | JObj m => JObj (<[k := v]> m)
  | _ => x
  end.

(** [dict(pairs)]: the pairs are inserted from left to right, so that a later
    pair overrides an earlier one with the same key. *)
Definition dict (pairs : list (string * string)) : gmap string string :=
  foldl (fun m p => <[p.1 := p.2]> m) ∅ pairs.

(** ** The libraries the module calls

    [validators.url], [urlparse], [urllib.quote_plus] and [str] belong to
    libraries outside the module.  The development is parametric in them;
    they are functions of their argument, and [quote_plus] is one that can
    raise: the module is Python 2 with [unicode_literals], and there
    [urllib.quote_plus] looks every character that is not safe up in a
    table of the 256 byte characters, so that a [unicode] string with a
    character outside ASCII raises [KeyError]. *)
Class PyLib : Type := {
  (** [validators.url(value)], read as a truth value. *)
  url : string -> bool;
  (** [urlparse.urlparse(value).query]. *)
  urlparse_query : string -> string;
  (** [urlparse.parse_qsl(query)]. *)
  parse_qsl : string -> list (string * string);
  (** [urllib.quote_plus(s)]: the encoded string, or the exception it
      raises. *)
  quote_plus : string -> res string;
  (** What ['{}'.format(x)] prints for an [x] that is not a string. *)
  py_str : json -> string
}.

(** ['{}'.format(x)]: a string is printed as it is. *)
Definition format_arg `{PyLib} (x : json) : string :=
  match x with
  | JStr s => s
  | _ => py_str x
  end.

Definition CLOUD_RM : string :=
  "https://cloudresourcemanager.googleapis.com/v1/projects".

(** ** project_from_field *)

(** The function returns what [quote_plus] returns and raises what it
    raises. *)
Definition project_from_field `{PyLib} (value : string) : res string :=
  if url value then
    let qs := dict (parse_qsl (urlparse_query value)) in
    match qs !! "project" with
    | Some p => quote_plus p
    | None => Val ""
    end
  else quote_plus value.

(** ** check_valid_domain *)

(** [domain in valid_domains]: some element of the list is equal to
    [domain].  The session holds a JSON value and the allowlist holds
    strings, so that an element is equal to [domain] only when [domain] is
    that very string. *)
Definition check_valid_domain (domain : json) (valid_domains : list string) : bool :=
  if existsb (eq_str domain) valid_domains then true else false.

(** ** Dates and times

    The part of [datetime] the module uses: [timedelta(minutes=n)],
    [datetime.now(tz)], [datetime + timedelta] and [isoformat()], on the
    proleptic Gregorian calendar, years 1 to 9999. *)

Record timedelta : Type := {
  days : Z;
  seconds : Z;
  microseconds : Z
}.

(** [ZERO = timedelta(0)]. *)
Definition ZERO : timedelta :=
  {| days := 0; seconds := 0; microseconds := 0 |}.

(** [timedelta(minutes=n)], normalised to days and seconds of the day; a
    [timedelta] holds at most 999999999 days either way. *)
Definition timedelta_minutes (n : Z) : res timedelta :=
  let s := n * 60 in
  let d := s / 86400 in
  if Z.abs d >? 999999999 then Exc OverflowError
  else Val {| days := d; seconds := s mod 86400; microseconds := 0 |}.

(** The fields of a [datetime], without its time zone. *)
Record civil : Type := {
  year : Z;
  month : Z;
  day : Z;
  hour : Z;
  minute : Z;
  second : Z;
  microsecond : Z
}.

Record tzinfo : Type := {
  utcoffset : civil -> timedelta;
  tzname : civil -> string;
  dst : civil -> timedelta
}.

(** [class UTC(tzinfo)] and its instance [utc]. *)
Definition UTC : tzinfo := {|
  utcoffset := fun _ => ZERO;
  tzname := fun _ => "UTC";
  dst := fun _ => ZERO
|}.

Definition utc : tzinfo := UTC.

Record datetime : Type := {
  wall : civil;
  tz : tzinfo
}.

Definition is_leap (y : Z) : bool :=
  (y mod 4 =? 0) && (negb (y mod 100 =? 0) || (y mod 400 =? 0)).

Definition days_before_year (y : Z) : Z :=
  let p := y - 1 in p * 365 + p / 4 - p / 100 + p / 400.

Definition days_in_month (leap : bool) (m : Z) : Z :=
  if m =? 2 then (if leap then 29 else 28)
  else if (m =? 4) || (m =? 6) || (m =? 9) || (m =? 11) then 30
  else 31.

Definition days_before_month (leap : bool) (m : Z) : Z :=
  nth (Z.to_nat m) [0; 0; 31; 59; 90; 120; 151; 181; 212; 243; 273; 304; 334] 0
  + (if (2 <? m) && leap then 1 else 0).

(** The day number of a date, 0001-01-01 being day 1. *)
Definition ymd2ord (y m d : Z) : Z :=
  days_before_year y + days_before_month (is_leap y) m + d.

(** [toordinal()]. *)
Definition toordinal (c : civil) : Z :=
  ymd2ord (year c) (month c) (day c).

Definition MAXORDINAL : Z := 3652059.

(** [date.fromordinal(n)]: year, month and day of day number [n], by the
    cycles of 400, 100, 4 and 1 years. *)
Definition fromordinal (n : Z) : Z * Z * Z :=
  let n0 := n - 1 in
  let n400 := n0 / 146097 in
  let n1 := n0 mod 146097 in
  let n100 := n1 / 36524 in
  let n2 := n1 mod 36524 in
  let n4 := n2 / 1461 in
  let n3 := n2 mod 1461 in
  let n1y := n3 / 365 in
  let r := n3 mod 365 in
  let y := n400 * 400 + 1 + n100 * 100 + n4 * 4 + n1y in
  if (n1y =? 4) || (n100 =? 4) then (y - 1, 12, 31)
  else
    let leap := (n1y =? 3) && (negb (n4 =? 24) || (n100 =? 3)) in
    let m := Z.shiftr (r + 50) 5 in
    let preceding := days_before_month leap m in
    if preceding >? r
    then (y, m - 1, r - (preceding - days_in_month leap (m - 1)) + 1)
    else (y, m, r - preceding + 1).

(** [dt + td]: the sum is taken in days, seconds and microseconds; a day
    number outside 1..[MAXORDINAL] raises [OverflowError]. *)
Definition datetime_add (dt : datetime) (td : timedelta) : res datetime :=
  let c := wall dt in
  let us := microsecond c + microseconds td in
  let secs := hour c * 3600 + minute c * 60 + second c + seconds td + us / 1000000 in
  let d := toordinal c + days td + secs / 86400 in
  let rem := secs mod 86400 in
  if (0 <? d) && (d <=? MAXORDINAL) then
    let '(y, m, dd) := fromordinal d in
    Val {| wall := {| year := y; month := m; day := dd;
                      hour := rem / 3600; minute := (rem mod 3600) / 60;
                      second := rem mod 60; microsecond := us mod 1000000 |};
           tz := tz dt |}
  else Exc OverflowError.

Definition digit (d : Z) : string :=
  String (Ascii.ascii_of_N (48 + Z.to_N d)) "".

(** ["%0wd" % n] for [0 <= n < 10^w]. *)
Fixpoint zpad (w : nat) (n : Z) : string :=
  match w with
  | O => ""
  | S w' => zpad w' (n / 10) +:+ digit (n mod 10)
  end.

(** The offset from UTC as [+HH:MM] or [-HH:MM]. *)
Definition format_offset (off : timedelta) : string :=
  let mins := days off * 1440 + seconds off / 60 in
  (if mins <? 0 then "-" else "+")
  +:+ zpad 2 (Z.abs mins / 60) +:+ ":" +:+ zpad 2 (Z.abs mins mod 60).

(** Date and time as [isoformat()] prints them: the microseconds appear
    only when they are not zero. *)
Definition timestamp_of (c : civil) : string :=
  zpad 4 (year c) +:+ "-" +:+ zpad 2 (month c) +:+ "-" +:+ zpad 2 (day c)
  +:+ "T" +:+ zpad 2 (hour c) +:+ ":" +:+ zpad 2 (minute c) +:+ ":" +:+ zpad 2 (second c)
  +:+ (if microsecond c =? 0 then "" else "." +:+ zpad 6 (microsecond c)).

(** [dt.isoformat()] of an aware [datetime]: date and time, then the
    offset its time zone reports. *)
Definition isoformat (dt : datetime) : string :=
  timestamp_of (wall dt) +:+ format_offset (utcoffset (tz dt) (wall dt)).

(** [datetime.datetime.now(tz)] when the clock, read in UTC, shows [c]: for
    [utc] the offset is [ZERO] and the wall time is the clock's. *)
Definition now (zone : tzinfo) (c : civil) : datetime :=
  {| wall := c; tz := zone |}.

(** Lines 142 and 143:
    [(datetime.datetime.now(utc) + datetime.timedelta(minutes=n)).isoformat()]
    when the clock shows [c]. *)
Definition expiry_at (c : civil) (n : Z) : res string :=
  match timedelta_minutes n with
  | Val delta =>
      match datetime_add (now utc c) delta with
      | Val later => Val (isoformat later)
      | Exc e => Exc e
      end
  | Exc e => Exc e
  end.

(** The time of day is within its ranges. *)
Definition valid_time (c : civil) : Prop :=
  0 <= hour c < 24 /\ 0 <= minute c < 60 /\ 0 <= second c < 60
  /\ 0 <= microsecond c < 1000000.

(** The date exists in the calendar. *)
Definition valid_date (c : civil) : Prop :=
  1 <= year c <= 9999 /\ 1 <= month c <= 12
  /\ 1 <= day c <= days_in_month (is_leap (year c)) (month c).

(** Whole minutes since 0001-01-01T00:00. *)
Definition minutes_of (c : civil) : Z :=
  (toordinal c - 1) * 1440 + hour c * 60 + minute c.

(** Day number [n] is given a date that exists and whose day number is [n]. *)
Definition day_ok (n : Z) : bool :=
  let '(y, m, d) := fromordinal n in
  (ymd2ord y m d =? n) && (1 <=? m) && (m <=? 12) && (1 <=? d)
  && (d <=? days_in_month (is_leap y) m).

(** [day_ok] on the [len] day numbers from [lo] on, by halving. *)
Fixpoint days_ok (len : positive) (lo : Z) : bool :=
  match len with
  | xH => day_ok lo
  | xO half => days_ok half lo && days_ok half (lo + Z.pos half)
  | xI half => day_ok lo && days_ok half (lo + 1) && days_ok half (lo + 1 + Z.pos half)
  end.

(** *** Reading a timestamp back

    What the policy engine is handed in [timestamp("...")]: an ISO-8601
    date and time, [YYYY-MM-DDTHH:MM:SS], an optional fraction of six
    digits that is not zero, and the offset [+00:00].  The reader is written
    against that format, not against [isoformat]. *)

Definition digit_value (c : Ascii.ascii) : option Z :=
  let n := Ascii.N_of_ascii c in
  if ((48 <=? n) && (n <=? 57))%N then Some (Z.of_N n - 48) else None.

(** [w] decimal digits, most significant first, added to [acc]. *)
Fixpoint read_digits (w : nat) (acc : Z) (s : string) : option (Z * string) :=
  match w with
  | O => Some (acc, s)
  | S w' =>
      match s with
      | String c s' =>
          match digit_value c with
          | Some d => read_digits w' (acc * 10 + d) s'
          | None => None
          end
      | EmptyString => None
      end
  end.

Definition expect (c : Ascii.ascii) (s : string) : option string :=
  match s with
  | String c' s' => if Ascii.eqb c c' then Some s' else None
  | EmptyString => None
  end.

Definition read_fraction (s : string) : option (Z * string) :=
  match expect "."%char s with
  | Some s' =>
      match read_digits 6 0 s' with
      | Some (us, rest) => if us =? 0 then None else Some (us, rest)
      | None => None
      end
  | None => Some (0, s)
  end.

Definition read_iso_utc (s : string) : option civil :=
  '(y, s) ← read_digits 4 0 s;
  s ← expect "-"%char s;
  '(mo, s) ← read_digits 2 0 s;
  s ← expect "-"%char s;
  '(d, s) ← read_digits 2 0 s;
  s ← expect "T"%char s;
  '(h, s) ← read_digits 2 0 s;
  s ← expect ":"%char s;
  '(mi, s) ← read_digits 2 0 s;
  s ← expect ":"%char s;
  '(se, s) ← read_digits 2 0 s;
  '(us, s) ← read_fraction s;
  if bool_decide (s = "+00:00") then
    Some {| year := y; month := mo; day := d; hour := h; minute := mi;
            second := se; microsecond := us |}
  else None.

(** ** The world around a request *)

(** A request sent through the OAuth session: [google.get(path)] or
    [google.post(url)] / [google.post(url, json=body)]. *)
Inductive request : Type :=
  | Get (path : string)
  | Post (target : string) (body : option json).

(** What comes back: the status and the decoded body; [resp.json()] raises
    [ValueError] on a body that is not JSON ([None] here). *)
Record response : Type := {
  status_code : Z;
  json_body : option json
}.

(** The OAuth session object [google]: whether a token is held, and the
    remote side, which answers a request knowing the requests sent so far. *)
Record google : Type := {
  authorized : bool;
  respond : list request -> request -> response
}.

(** What a call can read and change: the Flask [session], the messages
    flashed so far (each with its category), the requests sent so far, and
    the clock read in UTC. *)
Record state : Type := {
  session : gmap string json;
  flashes : list (string * string);
  calls : list request;
  clock : civil
}.

(** A run ends with a value or with an uncaught exception, in the state
    reached at that point. *)
Inductive outcome (A : Type) : Type :=
  | Ok (a : A) (s : state)
  | Raise (e : exn) (s : state).
Arguments Ok {A} a s.
Arguments Raise {A} e s.

Definition M (A : Type) : Type := state -> outcome A.

Definition ret {A} (a : A) : M A := fun s => Ok a s.

(** Sequencing: an exception raised by the first part ends the run. *)
Definition bind {A B} (m : M A) (k : A -> M B) : M B := fun s =>
  match m s with
  | Ok a s' => k a s'
  | Raise e s' => Raise e s'
  end.

Notation "'let*' x := m 'in' k" := (bind m (fun x => k))
  (at level 10, x name, m at level 100, k at level 200).
Notation "m >> k" := (bind m (fun _ => k))
  (at level 100, k at level 200, right associativity).

(** A pure expression inside a run. *)
Definition lift {A} (r : res A) : M A := fun s =>
  match r with
  | Val a => Ok a s
  | Exc e => Raise e s
  end.

(** [flash(message, category)]. *)
Definition flash (message category : string) : M unit := fun s =>
  Ok tt {| session := session s; flashes := flashes s ++ [(message, category)];
           calls := calls s; clock := clock s |}.

(** The [session] object, for [key in session]. *)
Definition read_session : M (gmap string json) := fun s => Ok (session s) s.

(** [session[key]]. *)
Definition session_get (key : string) : M json := fun s =>
  match session s !! key with
  | Some v => Ok v s
  | None => Raise (KeyError key) s
  end.

(** [session[key] = v]. *)
Definition session_set (key : string) (v : json) : M unit := fun s =>
  Ok tt {| session := <[key := v]> (session s); flashes := flashes s;
           calls := calls s; clock := clock s |}.

(** One blocking request: it is recorded and the remote side answers. *)
Definition send (g : google) (r : request) : M response := fun s =>
  Ok (respond g (calls s) r)
     {| session := session s; flashes := flashes s;
        calls := calls s ++ [r]; clock := clock s |}.

(** [resp.json()]. *)
Definition resp_json (r : response) : M json :=
  lift (match json_body r with
        | Some b => Val b
        | None => Exc ValueError
        end).

Definition read_clock : M civil := fun s => Ok (clock s) s.

(** ** login_required *)

(** What a route hands back to Flask: [redirect(url_for(endpoint))],
    [render_template(template), status], or the result of the wrapped
    function. *)
Inductive route (R : Type) : Type :=
  | Redirect (endpoint : string)
  | Rendered (template : string) (status : Z)
  | Returned (r : R).
Arguments Redirect {R} endpoint.
Arguments Rendered {R} template status.
Arguments Returned {R} r.

(** The process configuration, as far as the module reads it: the only key
    looked up holds a list of domain names. *)
Definition ALLOWED_GSUITE_DOMAINS : string := "ALLOWED_GSUITE_DOMAINS".

(** [flash(message, 'error')] followed by
    [return render_template('sorry.html.j2'), 403]. *)
Definition render_sorry {R} (message : string) : M (route R) :=
  flash message "error" >> ret (Rendered "sorry.html.j2" 403).

(** The [for email in ...] loop with its [else]: [true] when the loop was
    left by [break], [false] when the list ran out. *)
Fixpoint for_emails (emails : list json) : M bool :=
  match emails with
  | [] => ret false
  | email :: rest =>
      let* ty := lift (getitem email "type") in
      if eq_str ty "account" then
        let* v := lift (getitem email "value") in
        session_set "account" v >>
        ret true
      else for_emails rest
  end.

(** Lines 96 to 103: the allowlist check that ends every run which got past
    the profile. *)
Definition check_and_run {R} (config : gmap string (list string)) (func : M R)
  : M (route R) :=
  let* domain := session_get "domain" in
  if check_valid_domain domain (default [] (config !! ALLOWED_GSUITE_DOMAINS)) then
    let* r := func in ret (Returned r)
  else
    render_sorry "The account you are logged in with does not match the configured whitelist".

(** [login_required(google)(func)], called as [decorated_route]. *)
Definition login_required {R} (g : google) (config : gmap string (list string))
    (func : M R) : M (route R) :=
  if negb (authorized g) then ret (Redirect "google.login")
  else
    let* sess := read_session in
    if negb (forallb (fun key => bool_decide (is_Some (sess !! key)))
                     ["domain"; "account"]) then
      let* resp := send g (Get "/plus/v1/people/me") in
      if negb (status_code resp =? 200) then
        render_sorry "Could not get your profile information from Google"
      else
        let* body := resp_json resp in
        let* d := lift (get_or_none body "domain") in
        if is_not_none d then
          let* dom := lift (getitem body "domain") in
          session_set "domain" dom >>
          let* e := lift (get_or_none body "emails") in
          if is_not_none e then
            let* emails := lift (getitem body "emails") in
            let* items := lift (py_iter emails) in
            let* found := for_emails items in
            if found then check_and_run config func
            else render_sorry "The response from the Google Plus API did not include an email of type: account"
          else render_sorry "The response from the Google Plus API is missing a required field: emails"
        else render_sorry "The response from the Google Plus API is missing a required field: domain"
    else check_and_run config func.

(** ** add_conditional_binding *)

(** The fields of the form the function reads ([form.<field>.data]). *)
Record form : Type := {
  project : string;
  period : Z;
  target : string;
  domain : string;
  access : string
}.

(** The double quote character, as a string. *)
Definition dquote : string := String (Ascii.ascii_of_N 34) "".

(** The binding built at lines 146 to 151. *)
Definition new_binding `{PyLib} (expiry : string) (account : json) (f : form) : json :=
  let condition : gmap string json :=
    {[ "expression" := JStr ("request.time < timestamp(" +:+ dquote +:+ expiry
                             +:+ dquote +:+ ")");
       "title" := JStr ("granted by " +:+ format_arg account) ]} in
  let binding : gmap string json :=
    {[ "condition" := JObj condition;
       "members" := JArr [JStr ("user:" +:+ target f +:+ "@" +:+ domain f)];
       "role" := JStr (access f) ]} in
  JObj binding.

(** [add_conditional_binding(google, form)]. *)
Definition add_conditional_binding `{PyLib} (g : google) (f : form) : M unit :=
  let* project_id := lift (project_from_field (project f)) in
  if bool_decide (project_id = "") then
    flash "Could not find project ID in provided URL" "error"
  else
    let* cur_policy := send g (Post (CLOUD_RM +:+ "/" +:+ project_id +:+ ":getIamPolicy") None) in
    if negb (status_code cur_policy =? 200) then
      flash ("Could not fetch IAM policy for: " +:+ project_id
             +:+ ". This likely means the project ID was invalid or you do not have access to that project.")
            "error"
    else
      let* c := read_clock in
      let* expiry := lift (expiry_at c (period f)) in
      let* policy := resp_json cur_policy in
      let* bindings := lift (getitem policy "bindings") in
      let* append_to := lift (append bindings) in
      let* account := session_get "account" in
      let new_policy : gmap string json :=
        {[ "policy" := with_item policy "bindings"
                         (append_to (new_binding expiry account f)) ]} in
      let* result := send g (Post (CLOUD_RM +:+ "/" +:+ project_id +:+ ":setIamPolicy")
                            (Some (JObj new_policy))) in
      if negb (status_code result =? 200) then
        let* body := resp_json result in
        let* err := lift (getitem body "error") in
        let* message := lift (getitem err "message") in
        flash ("Could not apply new policy: " +:+ format_arg message) "error"
      else
        flash "Great success, they'll have access in a minute!" "success".

(** ** A small instance of the libraries

    Enough of [validators.url], [urlparse] and [urllib.quote_plus] to run the
    functions on plain inputs: a value is URL-shaped when it starts with
    [http://] or [https://], the query is what stands between the first [?]
    and the first [#] after it, pairs are split at [&] and at the first [=]
    (a pair with a blank value is dropped, as [parse_qsl] does by default),
    and [quote_plus] keeps letters, digits, [_], [.] and [-], turns a space
    into [+], escapes every other ASCII character as [%XX], and raises
    [KeyError] at the first character outside ASCII. *)
Module Sample.

Definition is_url (value : string) : bool :=
  String.prefix "http://" value || String.prefix "https://" value.

Fixpoint until (stop : Ascii.ascii) (s : string) : string :=
  match s with
  | EmptyString => ""
  | String c s' => if Ascii.eqb c stop then "" else String c (until stop s')
  end.

Fixpoint after (stop : Ascii.ascii) (s : string) : option string :=
  match s with
  | EmptyString => None
  | String c s' => if Ascii.eqb c stop then Some s' else after stop s'
  end.

Definition query_of (value : string) : string :=
  match after "?"%char value with
  | Some q => until "#"%char q
  | None => ""
  end.

Fixpoint split_on (sep : Ascii.ascii) (cur : string) (s : string) : list string :=
  match s with
  | EmptyString => [String.rev cur]
  | String c s' =>
      if Ascii.eqb c sep then String.rev cur :: split_on sep "" s'
      else split_on sep (String c cur) s'
  end.

Definition pair_of (item : string) : list (string * string) :=
  match after "="%char item with
  | Some v => if bool_decide (v = "") then [] else [(until "="%char item, v)]
  | None => []
  end.

Definition qsl (query : string) : list (string * string) :=
  concat (pair_of <$> split_on "&"%char "" query).

Definition hex_digit (n : N) : Ascii.ascii :=
  Ascii.ascii_of_N (if (n <? 10)%N then 48 + n else 55 + n)%N.

Definition always_safe (c : Ascii.ascii) : bool :=
  let n := Ascii.N_of_ascii c in
  ((48 <=? n) && (n <=? 57) || (65 <=? n) && (n <=? 90)
   || (97 <=? n) && (n <=? 122) || (n =? 95) || (n =? 46) || (n =? 45))%N.

(** One character, encoded. *)
Definition quote_char (c : Ascii.ascii) : string :=
  let n := Ascii.N_of_ascii c in
  if always_safe c then String c ""
  else if (n =? 32)%N then "+"
  else String "%"%char (String (hex_digit (n / 16)) (String (hex_digit (n mod 16)) "")).

Fixpoint quote (s : string) : res string :=
  match s with
  | EmptyString => Val ""
  | String c s' =>
      if (Ascii.N_of_ascii c <? 128)%N then
        match quote s' with
        | Val rest => Val (quote_char c +:+ rest)
        | Exc e => Exc e
        end
      else Exc (KeyError (String c ""))
  end.

Definition str (x : json) : string :=
  match x with
  | JNull => "None"
  | JBool true => "True"
  | JBool false => "False"
  | JStr s => s
  | _ => "<object>"
  end.

#[global] Instance lib : PyLib := {|
  url := is_url;
  urlparse_query := query_of;
  parse_qsl := qsl;
  quote_plus := quote;
  py_str := str
|}.

End Sample.

(** ** Shapes of remote answers, and states of the session *)

(** The two requests of [add_conditional_binding] for a project ID. *)
Definition get_policy_request (project_id : string) : request :=
  Post (CLOUD_RM +:+ "/" +:+ project_id +:+ ":getIamPolicy") None.

Definition set_policy_request (project_id : string) (body : json) : request :=
  Post (CLOUD_RM +:+ "/" +:+ project_id +:+ ":setIamPolicy") (Some body).

Definition profile_request : request := Get "/plus/v1/people/me".

(** The state after one more flashed message, one more request, one more
    session key. *)
Definition flashed (message category : string) (s : state) : state :=
  {| session := session s; flashes := flashes s ++ [(message, category)];
     calls := calls s; clock := clock s |}.

Definition sent (r : request) (s : state) : state :=
  {| session := session s; flashes := flashes s;
     calls := calls s ++ [r]; clock := clock s |}.

Definition stored (key : string) (v : json) (s : state) : state :=
  {| session := <[key := v]> (session s); flashes := flashes s;
     calls := calls s; clock := clock s |}.

(** The allowlist [current_app.config.get('ALLOWED_GSUITE_DOMAINS', [])]. *)
Definition allowlist (config : gmap string (list string)) : list string :=
  default [] (config !! ALLOWED_GSUITE_DOMAINS).

Definition whitelist_message : string :=
  "The account you are logged in with does not match the configured whitelist".

(** An entry of [emails] whose type is read and is not ['account']. *)
Definition other_email (e : json) : Prop :=
  exists t, getitem e "type" = Val t /\ eq_str t "account" = false.

(** The profile [body] names the domain [d] and the account [v]: [domain] is
    there and not null, and the first entry of [emails] of type ['account']
    carries the value [v]. *)
Definition profile_names (body : json) (d v : json) : Prop :=
  exists (m : gmap string json) ev before e after,
    body = JObj m /\ m !! "domain" = Some d /\ d <> JNull /\
    m !! "emails" = Some ev /\
    py_iter ev = Val (before ++ JObj e :: after) /\
    Forall other_email before /\
    e !! "type" = Some (JStr "account") /\ e !! "value" = Some v.

(** The profile fields [m] give no account: [emails] is missing, null, or
    holds only entries of another type. *)
Definition no_account_email (m : gmap string json) : Prop :=
  m !! "emails" = None \/ m !! "emails" = Some JNull \/
  exists ev es, m !! "emails" = Some ev /\ py_iter ev = Val es /\
                Forall other_email es.

(** The session holds both keys of the identity. *)
Definition holds_identity (sess : gmap string json) : Prop :=
  is_Some (sess !! "domain") /\ is_Some (sess !! "account").

(** [identified g s d s1]: from [s], the identity of the caller is known to
    be of domain [d] in state [s1], either because the session held it
    already, or because the profile was fetched and names it. *)
Inductive identified (g : google) (s : state) : json -> state -> Prop :=
  | identified_cached d :
      session s !! "domain" = Some d ->
      is_Some (session s !! "account") ->
      identified g s d s
  | identified_fetched body d v :
      ~ holds_identity (session s) ->
      status_code (respond g (calls s) profile_request) = 200 ->
      json_body (respond g (calls s) profile_request) = Some body ->
      profile_names body d v ->
      identified g s d
        (stored "account" v (stored "domain" d (sent profile_request s))).

(** Only [login_required] writes the two keys, [domain] first: a session
    with an account has a domain. *)
Definition session_inv (sess : gmap string json) : Prop :=
  is_Some (sess !! "account") -> is_Some (sess !! "domain").

(** The remote answers have the shape the module reads without checking. *)
Definition entry_ok (e : json) : Prop :=
  exists (m : gmap string json) t v,
    e = JObj m /\ m !! "type" = Some t /\ m !! "value" = Some v.

Definition profile_shaped (r : response) : Prop :=
  status_code r = 200 ->
  exists m : gmap string json,
    json_body r = Some (JObj m) /\
    forall ev, m !! "emails" = Some ev -> ev <> JNull ->
               exists es, py_iter ev = Val es /\ Forall entry_ok es.




(** The body written back: the fetched policy [pol], its [bindings] being
    the fetched ones [bs] followed by [b]. *)
Definition written_policy (pol : gmap string json) (bs : list json) (b : json) : json :=
  let body : gmap string json :=
    {[ "policy" := JObj (<["bindings" := JArr (bs ++ [b])]> pol) ]} in
  JObj body.

(** Lines 154 to 158: what is flashed once the write has been answered. *)
Definition report_write `{PyLib} (result : response) : M unit :=
  if negb (status_code result =? 200) then
    let* body := resp_json result in
    let* err := lift (getitem body "error") in
    let* message := lift (getitem err "message") in
    flash ("Could not apply new policy: " +:+ format_arg message) "error"
  else
    flash "Great success, they'll have access in a minute!" "success".

(** [message] contains [part]. *)
Definition mentions (message part : string) : Prop :=
  exists before after, message = before +:+ part +:+ after.

(** The requests of an outcome. *)
Definition calls_of {A} (o : outcome A) : list request :=
  match o with
  | Ok _ s => calls s
  | Raise _ s => calls s
  end.

(** ** Scenarios

    Concrete callers, forms and remote sides, on which the functions are
    run. *)
Module Scenario.

Definition new_year_eve : civil :=
  {| year := 2018; month := 12; day := 31;
     hour := 23; minute := 45; second := 0; microsecond := 0 |}.

(** A session that has not met the gate yet, and one that has. *)
Definition fresh : state :=
  {| session := ∅; flashes := []; calls := []; clock := new_year_eve |}.

Definition signed_in : state :=
  {| session := {[ "domain" := JStr "acme.com"; "account" := JStr "a@acme.com" ]};
     flashes := []; calls := []; clock := new_year_eve |}.

Definition answer (status : Z) (body : json) : response :=
  {| status_code := status; json_body := Some body |}.

(** A remote side that gives one answer to the profile request, one to a
    policy fetch and one to a policy write. *)
Definition remote (profile fetch write : response) : google :=
  {| authorized := true;
     respond := fun _ r =>
       match r with
       | Get _ => profile
       | Post _ None => fetch
       | Post _ (Some _) => write
       end |}.

Definition account_entry : gmap string json :=
  {[ "type" := JStr "account"; "value" := JStr "a@acme.com" ]}.

Definition profile_fields : gmap string json :=
  {[ "domain" := JStr "acme.com"; "emails" := JArr [JObj account_entry] ]}.

Definition owner_binding : json :=
  let b : gmap string json :=
    {[ "role" := JStr "roles/owner"; "members" := JArr [JStr "user:o@acme.com"] ]} in
  JObj b.

Definition policy_fields : gmap string json :=
  {[ "bindings" := JArr [owner_binding]; "etag" := JStr "BwWWja0YfJA=" ]}.

Definition bad_role_error : gmap string json := {[ "message" := JStr "bad role" ]}.

Definition bad_role_fields : gmap string json := {[ "error" := JObj bad_role_error ]}.

Definition empty_fields : gmap string json := ∅.

Definition ok_profile : response := answer 200 (JObj profile_fields).
Definition ok_policy : response := answer 200 (JObj policy_fields).
Definition done_write : response := answer 200 (JObj empty_fields).
Definition bad_role : response := answer 400 (JObj bad_role_fields).
Definition forbidden : response := answer 403 (JObj empty_fields).

(** The remote side when all goes well, when the write is refused, and
    when the fetch is refused. *)
Definition smooth : google := remote ok_profile ok_policy done_write.
Definition refusing_write : google := remote ok_profile ok_policy bad_role.
Definition refusing_fetch : google := remote ok_profile forbidden done_write.



Definition untyped_entry : gmap string json := {[ "value" := JStr "a@acme.com" ]}.



(** A profile with a domain and no [emails]. *)
Definition domain_only_fields : gmap string json := {[ "domain" := JStr "acme.com" ]}.

Definition domain_only : google :=
  remote (answer 200 (JObj domain_only_fields)) ok_policy done_write.

Definition request_form : form :=
  {| project := "https://console.cloud.google.com/home?project=my-proj";
     period := 30; target := "bob"; domain := "acme.com";
     access := "roles/viewer" |}.

Definition no_project_form : form :=
  {| project := "https://console.cloud.google.com/home?x=1";
     period := 30; target := "bob"; domain := "acme.com";
     access := "roles/viewer" |}.

Definition acme_only : gmap string (list string) :=
  {[ ALLOWED_GSUITE_DOMAINS := ["acme.com"] ]}.

Definition others_only : gmap string (list string) :=
  {[ ALLOWED_GSUITE_DOMAINS := ["other.com"] ]}.

Definition unconfigured : gmap string (list string) := ∅.

(** A wrapped function that does nothing. *)
Definition idle : M unit := ret tt.

End Scenario.

(** ** Where a run can stand

    The states [login_required] can be in when it ends or hands over to the
    wrapped function, and the exceptions its own lines can raise. *)

(** The state an outcome ends in. *)
Definition final {A} (o : outcome A) : state :=
  match o with
  | Ok _ s => s
  | Raise _ s => s
  end.

(** An outcome in which no wrapped function has a part, as the outcome of
    a route of any result type: the route type over the empty type has no
    [Returned]. *)
Definition stopped {R} (o : outcome (route Empty_set)) : outcome (route R) :=
  match o with
  | Ok (Redirect endpoint) s => Ok (Redirect endpoint) s
  | Ok (Rendered template status) s => Ok (Rendered template status) s
  | Ok (Returned r) _ => match r with end
  | Raise e s => Raise e s
  end.

(** After the profile request: nothing stored yet, the domain stored, or
    the domain and the account stored. *)
Definition fetched_state (s s1 : state) : Prop :=
  s1 = sent profile_request s
  \/ (exists d, s1 = stored "domain" d (sent profile_request s))
  \/ (exists d v,
        s1 = stored "account" v (stored "domain" d (sent profile_request s))).

(** The exceptions of lines 75 to 85: [resp.json()], [body.get], the
    iteration over [emails], and the subscripts [email['type']] and
    [email['value']]. *)
Definition gate_exn (e : exn) : Prop :=
  e = ValueError \/ e = AttributeError \/ e = TypeError
  \/ e = KeyError "type" \/ e = KeyError "value".

(** What [login_required] leaves alone on the way from [s] to [s1]: the
    clock, the flashed messages, every session key but its two, and the
    requests, but for the one profile request. *)
Definition gate_frame (s s1 : state) : Prop :=
  clock s1 = clock s
  /\ flashes s1 = flashes s
  /\ (forall k, k <> "domain" -> k <> "account" -> session s1 !! k = session s !! k)
  /\ (calls s1 = calls s \/ calls s1 = calls s ++ [profile_request]).

(** The exceptions of lines 142 to 151, the subscript [session['account']]
    apart: the sum of the dates, [cur_policy.json()], the subscript
    [['bindings']] and the lookup of [append]. *)
Definition build_exn (e : exn) : Prop :=
  e = OverflowError \/ e = ValueError \/ e = TypeError \/ e = AttributeError
  \/ e = KeyError "bindings".

(** The exceptions of line 156: [result.json()] and its two subscripts. *)
Definition report_exn (e : exn) : Prop :=
  e = ValueError \/ e = TypeError \/ e = KeyError "error" \/ e = KeyError "message".

(** A request of [add_conditional_binding] for the field [value]: a POST to
    one of the two methods of the project whose ID is the encoding of the
    field itself or of a [project] parameter of its query. *)
Definition encoded_target `{PyLib} (value : string) (r : request) : Prop :=
  exists x q method body,
    (x = value \/ ("project", x) ∈ parse_qsl (urlparse_query value))
    /\ quote_plus x = Val q /\ q <> ""
    /\ (method = ":getIamPolicy" \/ method = ":setIamPolicy")
    /\ r = Post (CLOUD_RM +:+ "/" +:+ q +:+ method) body.

(** More scenarios: a profile whose domain is not a string, one with two
    entries of type [account] and an entry that cannot be read after them,
    and a remote side that refuses the profile request. *)
Module Corner.

Definition numeric_domain_fields : gmap string json :=
  {[ "domain" := JNum 7; "emails" := JArr [JObj Scenario.account_entry] ]}.

Definition numeric_domain : google :=
  Scenario.remote (Scenario.answer 200 (JObj numeric_domain_fields))
    Scenario.ok_policy Scenario.done_write.

Definition home_entry : gmap string json :=
  {[ "type" := JStr "home"; "value" := JStr "h@example.org" ]}.

Definition second_account_entry : gmap string json :=
  {[ "type" := JStr "account"; "value" := JStr "b@acme.com" ]}.

Definition crowded_fields : gmap string json :=
  {[ "domain" := JStr "acme.com";
     "emails" := JArr [JObj home_entry; JObj Scenario.account_entry;
                       JObj second_account_entry; JNum 0] ]}.

Definition crowded : google :=
  Scenario.remote (Scenario.answer 200 (JObj crowded_fields))
    Scenario.ok_policy Scenario.done_write.

Definition unreadable_first_fields : gmap string json :=
  {[ "domain" := JStr "acme.com";
     "emails" := JArr [JObj home_entry; JObj Scenario.untyped_entry;
                       JObj Scenario.account_entry] ]}.

Definition unreadable_first : google :=
  Scenario.remote (Scenario.answer 200 (JObj unreadable_first_fields))
    Scenario.ok_policy Scenario.done_write.

Definition null_domain_fields : gmap string json :=
  {[ "domain" := JNull; "emails" := JArr [JObj Scenario.account_entry] ]}.

Definition null_domain : google :=
  Scenario.remote (Scenario.answer 200 (JObj null_domain_fields))
    Scenario.ok_policy Scenario.done_write.

Definition no_profile : google :=
  Scenario.remote Scenario.forbidden Scenario.ok_policy Scenario.done_write.



(** A session with a key of another part of the application. *)
Definition with_csrf : state :=
  {| session := {[ "csrf_token" := JStr "x1" ]};
     flashes := [("hello", "info")]; calls := []; clock := Scenario.new_year_eve |}.

End Corner.

(** * Properties *)

(** One step of a run: the operations of the state are unfolded and the
    fields of the state are read. *)
Ltac run :=
  unfold resp_json, render_sorry;
  unfold bind, send, lift, read_clock, session_get, session_set,
    read_session, flash, ret;
  cbv beta iota;
  cbn [session flashes calls clock negb getitem append with_item sent stored flashed].

(** ** The functions on plain inputs *)

Example dict_last_wins :
  dict [("project", "a"); ("x", "1"); ("project", "b")] !! "project" = Some "b".
Proof. vm_compute. reflexivity. Qed.

Example project_repeated :
  project_from_field "https://console.cloud.google.com/home?project=a&project=b/c"
  = Val "b%2Fc".
Proof. vm_compute. reflexivity. Qed.

Example expiry_over_new_year :
  expiry_at Scenario.new_year_eve 30 = Val "2019-01-01T00:15:00+00:00".
Proof. vm_compute. reflexivity. Qed.

Example expiry_on_leap_day :
  expiry_at {| year := 2020; month := 2; day := 28;
               hour := 23; minute := 59; second := 59; microsecond := 250 |} 1
  = Val "2020-02-29T00:00:59.000250+00:00".
Proof. vm_compute. reflexivity. Qed.

Example expiry_out_of_range :
  expiry_at Scenario.new_year_eve 10000000000 = Exc OverflowError.
Proof. vm_compute. reflexivity. Qed.

(** The whole route on a fresh session: the profile is fetched, the domain
    is allowed, the policy is fetched and written back. *)
Example grant_succeeds :
  match login_required Scenario.smooth Scenario.acme_only
          (add_conditional_binding Scenario.smooth Scenario.request_form)
          Scenario.fresh with
  | Ok (Returned tt) s' =>
      flashes s' = [("Great success, they'll have access in a minute!", "success")]
      /\ length (calls s') = 3%nat
      /\ session s' !! "domain" = Some (JStr "acme.com")
      /\ session s' !! "account" = Some (JStr "a@acme.com")
  | _ => False
  end.
Proof. vm_compute. repeat split. Qed.

Section Calendar.

Lemma days_ok_spec len : forall lo n,
  days_ok len lo = true -> lo <= n < lo + Z.pos len -> day_ok n = true.
Proof.
  induction len as [half IH|half IH|]; intros lo n Hok Hn; cbn [days_ok] in Hok.
  - apply andb_true_iff in Hok as [Hok H2]. apply andb_true_iff in Hok as [H0 H1].
    destruct (decide (n = lo)) as [->|Hne]; [done|].
    destruct (decide (n < lo + 1 + Z.pos half)).
    + apply (IH (lo + 1)); [done|lia].
    + apply (IH (lo + 1 + Z.pos half)); [done|lia].
  - apply andb_true_iff in Hok as [H1 H2].
    destruct (decide (n < lo + Z.pos half)).
    + apply (IH lo); [done|lia].
    + apply (IH (lo + Z.pos half)); [done|lia].
  - assert (n = lo) as -> by lia. done.
Qed.

(** The 146097 days of the first cycle of 400 years, checked one by one. *)
Lemma first_cycle_ok n : 1 <= n <= 146097 -> day_ok n = true.
Proof.
  intros Hn. apply (days_ok_spec 146097 1); [|lia].
  vm_compute. reflexivity.
Qed.

(** The calendar repeats every 400 years, which are 146097 days. *)
Lemma is_leap_shift y q : is_leap (y + 400 * q) = is_leap y.
Proof.
  unfold is_leap.
  replace ((y + 400 * q) mod 4) with (y mod 4)
    by (Z.div_mod_to_equations; lia).
  replace ((y + 400 * q) mod 100) with (y mod 100)
    by (Z.div_mod_to_equations; lia).
  replace ((y + 400 * q) mod 400) with (y mod 400)
    by (Z.div_mod_to_equations; lia).
  reflexivity.
Qed.

Lemma ymd2ord_shift y m d q :
  ymd2ord (y + 400 * q) m d = ymd2ord y m d + 146097 * q.
Proof.
  unfold ymd2ord. rewrite is_leap_shift. unfold days_before_year.
  Z.div_mod_to_equations. lia.
Qed.

Lemma fromordinal_shift n q :
  1 <= n <= 146097 ->
  fromordinal (n + 146097 * q)
  = let '(y, m, d) := fromordinal n in (y + 400 * q, m, d).
Proof.
  intros Hn. unfold fromordinal.
  replace ((n + 146097 * q - 1) / 146097) with q
    by (Z.div_mod_to_equations; lia).
  replace ((n + 146097 * q - 1) mod 146097) with (n - 1)
    by (Z.div_mod_to_equations; lia).
  replace ((n - 1) / 146097) with 0 by (Z.div_mod_to_equations; lia).
  replace ((n - 1) mod 146097) with (n - 1) by (Z.div_mod_to_equations; lia).
  cbv zeta.
  destruct (_ || _); [f_equal; f_equal; lia|].
  destruct (_ >? _); f_equal; f_equal; lia.
Qed.

Lemma days_before_month_bounds leap m :
  1 <= m <= 12 ->
  0 <= days_before_month leap m
  /\ days_before_month leap m + days_in_month leap m <= 366.
Proof.
  intros Hm.
  assert (m = 1 \/ m = 2 \/ m = 3 \/ m = 4 \/ m = 5 \/ m = 6 \/ m = 7 \/ m = 8
          \/ m = 9 \/ m = 10 \/ m = 11 \/ m = 12) as Hcases by lia.
  repeat (destruct Hcases as [->|Hcases]); try subst m;
    destruct leap; vm_compute; split; discriminate.
Qed.

(** A date of the calendar whose day number is at most [MAXORDINAL] has a
    year between 1 and 9999. *)
Lemma ymd2ord_year y m d :
  1 <= m <= 12 -> 1 <= d <= days_in_month (is_leap y) m ->
  0 < ymd2ord y m d <= MAXORDINAL ->
  1 <= y <= 9999.
Proof.
  intros Hm Hd. unfold ymd2ord, days_before_year, MAXORDINAL.
  pose proof (days_before_month_bounds (is_leap y) m Hm) as [Hlo Hhi].
  intros Hn. Z.div_mod_to_equations. lia.
Qed.

(** Every day number of the calendar is given a date that exists and whose
    day number it is. *)
Lemma fromordinal_ok n :
  0 < n <= MAXORDINAL ->
  exists y m d,
    fromordinal n = (y, m, d) /\ ymd2ord y m d = n
    /\ 1 <= y <= 9999
    /\ 1 <= m <= 12 /\ 1 <= d <= days_in_month (is_leap y) m.
Proof.
  intros Hn. cut (exists y m d,
    fromordinal n = (y, m, d) /\ ymd2ord y m d = n
    /\ 1 <= m <= 12 /\ 1 <= d <= days_in_month (is_leap y) m).
  { intros (y & m & d & Hfrom & Hord & Hm & Hd). exists y, m, d.
    split; [done|]. split; [done|]. split; [|done].
    apply (ymd2ord_year y m d Hm Hd). by rewrite Hord. }
  pose (q := (n - 1) / 146097). pose (r := (n - 1) mod 146097 + 1).
  assert (1 <= r <= 146097) as Hr by (unfold r; Z.div_mod_to_equations; lia).
  assert (n = r + 146097 * q) as Hsplit by (unfold r, q; Z.div_mod_to_equations; lia).
  clearbody r q. subst n.
  rewrite (fromordinal_shift r q Hr).
  pose proof (first_cycle_ok r Hr) as Hok. unfold day_ok in Hok.
  destruct (fromordinal r) as [[y m] d].
  repeat (apply andb_true_iff in Hok as [Hok ?]).
  exists (y + 400 * q), m, d. rewrite ymd2ord_shift, is_leap_shift.
  split; [reflexivity|]. lia.
Qed.

(** The sum of a date and a duration, when there is one, is a time of an
    existing day, whatever the two were. *)
Lemma datetime_add_valid dt td later :
  datetime_add dt td = Val later ->
  valid_date (wall later) /\ valid_time (wall later) /\ tz later = tz dt.
Proof.
  unfold valid_time, valid_date, datetime_add. intros Hadd.
  destruct (_ && _) eqn:Hrange; [|discriminate].
  apply andb_true_iff in Hrange as [Hlo Hhi].
  apply Z.ltb_lt in Hlo. apply Z.leb_le in Hhi.
  destruct (fromordinal_ok _ (conj Hlo Hhi))
    as (y & m & d & Hfrom & Hord & Hy & Hmd & Hdd).
  rewrite Hfrom in Hadd. injection Hadd as <-.
  cbn [wall tz year month day hour minute second microsecond].
  repeat split; try (Z.div_mod_to_equations; lia).
Qed.

Lemma string_app_nil (b : string) : "" +:+ b = b.
Proof. reflexivity. Qed.

Lemma string_app_cons x (a b : string) : String x a +:+ b = String x (a +:+ b).
Proof. reflexivity. Qed.

Lemma string_app_assoc (a b c : string) : (a +:+ b) +:+ c = a +:+ (b +:+ c).
Proof.
  induction a as [|x a IH]; [done|].
  rewrite !string_app_cons. by rewrite IH.
Qed.

Lemma digit_value_digit d :
  0 <= d < 10 ->
  exists c, digit d = String c "" /\ digit_value c = Some d.
Proof.
  intros Hd.
  assert (d = 0 \/ d = 1 \/ d = 2 \/ d = 3 \/ d = 4 \/ d = 5 \/ d = 6 \/ d = 7
          \/ d = 8 \/ d = 9) as Hcases by lia.
  repeat (destruct Hcases as [->|Hcases]); try subst d;
    eexists; split; reflexivity.
Qed.

Lemma read_digits_app a b : forall acc s,
  read_digits (a + b) acc s
  = match read_digits a acc s with
    | Some (acc', s') => read_digits b acc' s'
    | None => None
    end.
Proof.
  induction a as [|a IH]; intros acc s; [done|].
  cbn [Nat.add read_digits]. destruct s as [|c s]; [done|].
  destruct (digit_value c); [apply IH|done].
Qed.

(** The digits [zpad] prints are read back as the number. *)
Lemma read_digits_zpad w : forall n acc rest,
  0 <= n < 10 ^ Z.of_nat w ->
  read_digits w acc (zpad w n +:+ rest) = Some (acc * 10 ^ Z.of_nat w + n, rest).
Proof.
  induction w as [|w IH]; intros n acc rest Hn.
  { cbn. f_equal. f_equal. change (10 ^ Z.of_nat 0) with 1 in *. lia. }
  cbn [zpad]. rewrite string_app_assoc.
  replace (S w) with (w + 1)%nat by lia. rewrite read_digits_app.
  assert (10 ^ Z.of_nat (w + 1) = 10 ^ Z.of_nat w * 10) as Hpow.
  { rewrite Nat2Z.inj_add, Z.pow_add_r by lia. reflexivity. }
  rewrite Hpow in *.
  rewrite IH by (Z.div_mod_to_equations; nia).
  destruct (digit_value_digit (n mod 10)) as (c & -> & Hc);
    [Z.div_mod_to_equations; lia|].
  rewrite string_app_cons, string_app_nil. cbn [read_digits]. rewrite Hc.
  f_equal. f_equal. Z.div_mod_to_equations. nia.
Qed.

(** The timestamp of a time of an existing day, with the offset of [utc],
    is read back as that time. *)
Lemma read_iso_utc_timestamp c :
  valid_date c -> valid_time c ->
  read_iso_utc (timestamp_of c +:+ "+00:00") = Some c.
Proof.
  unfold valid_date, valid_time.
  intros (Hy & Hm & Hd) (Hh & Hmi & Hs & Hus).
  assert (day c <= 31) as Hd31.
  { unfold days_in_month in Hd. repeat destruct (_ =? _) in Hd; cbn in Hd;
      destruct (is_leap (year c)); lia. }
  destruct c as [y mo d h mi se us].
  cbn [year month day hour minute second microsecond] in *.
  unfold timestamp_of, read_iso_utc.
  cbn [year month day hour minute second microsecond].
  rewrite !string_app_assoc.
  do 5 (rewrite read_digits_zpad by (cbn; lia); cbn [mbind option_bind];
        rewrite string_app_cons, string_app_nil;
        cbn [expect Ascii.eqb Bool.eqb andb mbind option_bind]).
  rewrite read_digits_zpad by (cbn; lia). cbn [mbind option_bind].
  unfold read_fraction.
  destruct (us =? 0) eqn:Hzero.
  - apply Z.eqb_eq in Hzero as ->. rewrite string_app_nil.
    cbn [expect Ascii.eqb Bool.eqb andb mbind option_bind].
    rewrite bool_decide_true by done. reflexivity.
  - rewrite string_app_assoc, string_app_cons, string_app_nil.
    cbn [expect Ascii.eqb Bool.eqb andb].
    rewrite read_digits_zpad by (cbn; lia).
    replace (0 * 10 ^ Z.of_nat 6 + us) with us by lia.
    rewrite Hzero. cbn [mbind option_bind].
    rewrite bool_decide_true by done. reflexivity.
Qed.

(** [dt + timedelta(minutes=n)] is [n] minutes later; seconds and
    microseconds are kept, and the result is a time of an existing day. *)
Lemma datetime_add_minutes c n delta later :
  valid_time c ->
  timedelta_minutes n = Val delta ->
  datetime_add (now utc c) delta = Val later ->
  minutes_of (wall later) = minutes_of c + n
  /\ second (wall later) = second c
  /\ microsecond (wall later) = microsecond c
  /\ valid_time (wall later) /\ valid_date (wall later) /\ tz later = utc.
Proof.
  unfold valid_time, valid_date, minutes_of.
  intros (Hh & Hm & Hs & Hu) Hdelta Hadd.
  unfold timedelta_minutes in Hdelta.
  destruct (_ >? _); [discriminate|]. injection Hdelta as <-.
  unfold datetime_add in Hadd. cbn [now wall tz days seconds microseconds] in Hadd.
  destruct (_ && _) eqn:Hrange; [|discriminate].
  apply andb_true_iff in Hrange as [Hlo Hhi].
  apply Z.ltb_lt in Hlo. apply Z.leb_le in Hhi.
  destruct (fromordinal_ok _ (conj Hlo Hhi))
    as (y & m & d & Hfrom & Hord & Hy & Hmd & Hdd).
  rewrite Hfrom in Hadd. injection Hadd as <-.
  cbn [wall tz year month day hour minute second microsecond].
  unfold toordinal at 1. cbn [year month day]. rewrite Hord.
  repeat split; try (Z.div_mod_to_equations; lia).
Qed.

End Calendar.

Section Dict.

Implicit Types (pairs : list (string * string)) (m : gmap string string).




End Dict.

Section Project.

Context `{PyLib}.


End Project.


Section Grant.

Context `{PyLib}.

Implicit Types (g : google) (f : form) (s : state).

Lemma grant_no_project g f s :
  project_from_field (project f) = Val "" ->
  add_conditional_binding g f s
  = Ok tt (flashed "Could not find project ID in provided URL" "error" s).
Proof.
  intros Hp. unfold add_conditional_binding. rewrite Hp.
  unfold bind at 1, lift at 1. cbv beta iota.
  rewrite bool_decide_true by done. reflexivity.
Qed.

Lemma grant_fetch_failed g f s p :
  project_from_field (project f) = Val p -> p <> "" ->
  status_code (respond g (calls s) (get_policy_request p)) <> 200 ->
  add_conditional_binding g f s
  = Ok tt (flashed ("Could not fetch IAM policy for: " +:+ p
                    +:+ ". This likely means the project ID was invalid or you do not have access to that project.")
                   "error" (sent (get_policy_request p) s)).
Proof.
  intros Hp Hne Hst. unfold add_conditional_binding. rewrite Hp.
  unfold bind at 1, lift at 1. cbv beta iota.
  rewrite bool_decide_false by done.
  unfold bind at 1. unfold send. fold (get_policy_request p).
  apply Z.eqb_neq in Hst. rewrite Hst. reflexivity.
Qed.

(** Up to the write: with a project, a fetched policy that holds a list of
    bindings, a representable expiry and an account in the session, the
    function sends the two requests and reports on the second answer. *)
Lemma grant_reaches_write g f s p pol bs expiry acct :
  project_from_field (project f) = Val p -> p <> "" ->
  status_code (respond g (calls s) (get_policy_request p)) = 200 ->
  json_body (respond g (calls s) (get_policy_request p)) = Some (JObj pol) ->
  pol !! "bindings" = Some (JArr bs) ->
  expiry_at (clock s) (period f) = Val expiry ->
  session s !! "account" = Some acct ->
  let written := written_policy pol bs (new_binding expiry acct f) in
  add_conditional_binding g f s
  = report_write
      (respond g (calls s ++ [get_policy_request p]) (set_policy_request p written))
      (sent (set_policy_request p written) (sent (get_policy_request p) s)).
Proof.
  intros Hp Hne Hst Hbody Hb Hexp Hacct written.
  unfold add_conditional_binding. rewrite Hp.
  unfold bind at 1, lift at 1. cbv beta iota.
  rewrite bool_decide_false by done. run.
  fold (get_policy_request p).
  apply Z.eqb_eq in Hst. rewrite Hst. run.
  rewrite Hexp. run. rewrite Hbody. run. rewrite Hb. run.
  rewrite Hacct. run.
  reflexivity.
Qed.

Lemma report_write_calls (r : response) s :
  calls_of (report_write r s) = calls s.
Proof.
  unfold report_write. destruct (negb _); [|reflexivity]. run.
  destruct (json_body r) as [body|]; [|reflexivity].
  destruct (getitem body "error") as [err|]; [|reflexivity].
  destruct (getitem err "message"); reflexivity.
Qed.

(** The expiry is the clock plus the period, printed with the offset of
    [utc]. *)
Lemma expiry_at_utc c n expiry :
  expiry_at c n = Val expiry ->
  exists delta later,
    timedelta_minutes n = Val delta /\
    datetime_add (now utc c) delta = Val later /\
    expiry = isoformat later /\
    expiry = timestamp_of (wall later) +:+ "+00:00".
Proof.
  unfold expiry_at. intros Hexp.
  destruct (timedelta_minutes n) as [delta|]; [|discriminate].
  destruct (datetime_add (now utc c) delta) as [later|] eqn:Hadd; [|discriminate].
  injection Hexp as <-. exists delta, later.
  split; [reflexivity|]. split; [exact Hadd|]. split; [reflexivity|].
  unfold datetime_add in Hadd.
  destruct (_ && _); [|discriminate].
  destruct (fromordinal _) as [[y m] dd]. injection Hadd as <-.
  reflexivity.
Qed.

(** C8. When the project field resolves to the empty string, the function
    flashes the error [Could not find project ID in provided URL] and
    returns; no request is sent and the session is left alone. *)
Theorem grant_without_project g f s :
  project_from_field (project f) = Val "" ->
  exists s',
    add_conditional_binding g f s = Ok tt s' /\
    flashes s' = flashes s ++ [("Could not find project ID in provided URL", "error")] /\
    calls s' = calls s /\
    session s' = session s.
Proof.
  intros Hp. eexists. split; [by apply grant_no_project|]. done.
Qed.

(** C4. When [getIamPolicy] is answered with a status other than 200, the
    function flashes one error that mentions the resolved project ID and
    returns; the fetch is the only request sent, so no [setIamPolicy]
    request is among those issued. *)
Theorem policy_fetch_refused g f s p :
  project_from_field (project f) = Val p -> p <> "" ->
  status_code (respond g (calls s) (get_policy_request p)) <> 200 ->
  exists s' message,
    add_conditional_binding g f s = Ok tt s' /\
    flashes s' = flashes s ++ [(message, "error")] /\
    message = "Could not fetch IAM policy for: " +:+ p
              +:+ ". This likely means the project ID was invalid or you do not have access to that project." /\
    mentions message p /\
    calls s' = calls s ++ [get_policy_request p] /\
    forall q body, set_policy_request q body <> get_policy_request p.
Proof.
  intros Hp Hne Hst. eexists _, _.
  split; [by apply grant_fetch_failed|].
  repeat split.
  - by exists "Could not fetch IAM policy for: ",
      ". This likely means the project ID was invalid or you do not have access to that project.".
  - intros q body. discriminate.
Qed.

(** C5. When [setIamPolicy] is answered with a status other than 200 and
    the body [{error: {message: M}}], the function flashes the error
    [Could not apply new policy: ] followed by [M] itself. *)
Theorem policy_write_refused g f s p pol bs expiry acct body err message :
  project_from_field (project f) = Val p -> p <> "" ->
  status_code (respond g (calls s) (get_policy_request p)) = 200 ->
  json_body (respond g (calls s) (get_policy_request p)) = Some (JObj pol) ->
  pol !! "bindings" = Some (JArr bs) ->
  expiry_at (clock s) (period f) = Val expiry ->
  session s !! "account" = Some acct ->
  let written := written_policy pol bs (new_binding expiry acct f) in
  let answer := respond g (calls s ++ [get_policy_request p])
                  (set_policy_request p written) in
  status_code answer <> 200 ->
  json_body answer = Some (JObj body) ->
  body !! "error" = Some (JObj err) ->
  err !! "message" = Some (JStr message) ->
  exists s',
    add_conditional_binding g f s = Ok tt s' /\
    flashes s' = flashes s ++ [("Could not apply new policy: " +:+ message, "error")].
Proof.
  intros Hp Hne Hst Hbody Hb Hexp Hacct written answer Hst2 Hbody2 Herr Hmsg.
  rewrite (grant_reaches_write g f s p pol bs expiry acct) by done.
  fold written answer. unfold report_write.
  apply Z.eqb_neq in Hst2. rewrite Hst2. run.
  rewrite Hbody2. run. rewrite Herr. run. rewrite Hmsg. run.
  eexists. split; reflexivity.
Qed.

(** C2. With a project, a fetched policy and an acting account, the
    function builds one binding: its condition holds the expression
    [request.time < timestamp("<expiry>")], the expiry being the clock in
    UTC plus the period (a time of an existing day, that many minutes
    later, seconds and microseconds kept), printed in ISO-8601 with the
    offset [+00:00] (a reader of that format gets the very time back), and
    the title [granted by <account>]; its members are the one user
    [user:<target>@<domain>]; its role is that of the form.  The policy
    written back is the fetched one with this binding after the fetched
    bindings, every other field as fetched. *)
Theorem grant_appends_binding g f s p pol bs expiry account :
  project_from_field (project f) = Val p -> p <> "" ->
  status_code (respond g (calls s) (get_policy_request p)) = 200 ->
  json_body (respond g (calls s) (get_policy_request p)) = Some (JObj pol) ->
  pol !! "bindings" = Some (JArr bs) ->
  expiry_at (clock s) (period f) = Val expiry ->
  session s !! "account" = Some (JStr account) ->
  exists (binding condition written : gmap string json),
    calls_of (add_conditional_binding g f s)
    = calls s ++ [get_policy_request p;
                  set_policy_request p (JObj {[ "policy" := JObj written ]})] /\
    written !! "bindings" = Some (JArr (bs ++ [JObj binding])) /\
    (forall k, k <> "bindings" -> written !! k = pol !! k) /\
    binding !! "condition" = Some (JObj condition) /\
    condition !! "expression"
    = Some (JStr ("request.time < timestamp(" +:+ dquote +:+ expiry +:+ dquote +:+ ")")) /\
    condition !! "title" = Some (JStr ("granted by " +:+ account)) /\
    binding !! "members" = Some (JArr [JStr ("user:" +:+ target f +:+ "@" +:+ domain f)]) /\
    binding !! "role" = Some (JStr (access f)) /\
    dom binding = {[ "condition"; "members"; "role" ]} /\
    dom condition = {[ "expression"; "title" ]} /\
    exists delta later,
      timedelta_minutes (period f) = Val delta /\
      datetime_add (now utc (clock s)) delta = Val later /\
      expiry = isoformat later /\
      expiry = timestamp_of (wall later) +:+ "+00:00" /\
      valid_date (wall later) /\ valid_time (wall later) /\
      read_iso_utc expiry = Some (wall later) /\
      (valid_time (clock s) ->
       minutes_of (wall later) = minutes_of (clock s) + period f
       /\ second (wall later) = second (clock s)
       /\ microsecond (wall later) = microsecond (clock s)).
Proof.
  intros Hp Hne Hst Hbody Hb Hexp Hacct.
  rewrite (grant_reaches_write g f s p pol bs expiry (JStr account)) by done.
  rewrite report_write_calls. cbn [sent calls].
  eexists _, _, _. split.
  { rewrite <- app_assoc. reflexivity. }
  split; [apply lookup_insert_eq|].
  split; [intros k Hk; by apply lookup_insert_ne|].
  split; [reflexivity|].
  split; [reflexivity|].
  split; [reflexivity|].
  split; [reflexivity|].
  split; [reflexivity|].
  split; [set_solver|].
  split; [set_solver|].
  destruct (expiry_at_utc _ _ _ Hexp) as (delta & later & Hdelta & Hadd & Hiso & Hutc).
  exists delta, later.
  split; [exact Hdelta|]. split; [exact Hadd|]. split; [exact Hiso|].
  split; [exact Hutc|].
  destruct (datetime_add_valid _ _ _ Hadd) as (Hdate & Htime & _).
  split; [exact Hdate|]. split; [exact Htime|].
  split; [rewrite Hutc; by apply read_iso_utc_timestamp|].
  intros Hvalid.
  destruct (datetime_add_minutes _ _ _ _ Hvalid Hdelta Hadd) as (Hmin & Hsec & Hus & _).
  done.
Qed.

End Grant.

Section Enforce.

Implicit Types (g : google) (s : state) (config : gmap string (list string)).

Lemma has_keys_spec (sess : gmap string json) :
  forallb (fun key => bool_decide (is_Some (sess !! key))) ["domain"; "account"] = true
  <-> holds_identity sess.
Proof.
  unfold holds_identity. cbn [forallb].
  rewrite !andb_true_iff, !bool_decide_eq_true. tauto.
Qed.

Lemma has_keys_false (sess : gmap string json) :
  ~ holds_identity sess ->
  forallb (fun key => bool_decide (is_Some (sess !! key))) ["domain"; "account"] = false.
Proof.
  intros Hno. apply not_true_is_false. by rewrite has_keys_spec.
Qed.

(** The loop over [emails]. *)
Lemma for_emails_none es s :
  Forall other_email es -> for_emails es s = Ok false s.
Proof.
  induction 1 as [|e es (t & Ht & Hne) _ IH]; [reflexivity|].
  cbn [for_emails]. run. rewrite Ht. run. by rewrite Hne.
Qed.

Lemma for_emails_found before (e : gmap string json) after v s :
  Forall other_email before ->
  e !! "type" = Some (JStr "account") -> e !! "value" = Some v ->
  for_emails (before ++ JObj e :: after) s = Ok true (stored "account" v s).
Proof.
  intros Hbefore Hty Hv.
  induction Hbefore as [|e' es (t & Ht & Hne) _ IH]; cbn [for_emails app]; run.
  - rewrite Hty. cbn [eq_str]. rewrite bool_decide_true by done.
    run. by rewrite Hv.
  - rewrite Ht. run. by rewrite Hne.
Qed.

Lemma for_emails_cases es s :
  for_emails es s = Ok false s
  \/ (exists v, for_emails es s = Ok true (stored "account" v s))
  \/ (exists e, for_emails es s = Raise e s).
Proof.
  induction es as [|email es IH]; [by left|].
  cbn [for_emails]. run.
  destruct (getitem email "type") as [t|e]; [|right; right; by eexists].
  run. destruct (eq_str t "account"); [|exact IH].
  run. destruct (getitem email "value") as [v|e]; run.
  - right; left. by eexists.
  - right; right. by eexists.
Qed.

Lemma for_emails_shaped es s :
  Forall entry_ok es ->
  for_emails es s = Ok false s
  \/ exists v, for_emails es s = Ok true (stored "account" v s).
Proof.
  induction 1 as [|email es (m & t & v & -> & Ht & Hv) _ IH]; [by left|].
  cbn [for_emails]. run. rewrite Ht. run.
  destruct (eq_str t "account"); [|exact IH].
  run. rewrite Hv. right. by eexists.
Qed.

(** The allowlist check, once the session holds a domain. *)
Lemma check_and_run_eq {R} config (func : M R) s d :
  session s !! "domain" = Some d ->
  check_and_run config func s
  = if check_valid_domain d (allowlist config)
    then bind func (fun r => ret (Returned r)) s
    else Ok (Rendered "sorry.html.j2" 403) (flashed whitelist_message "error" s).
Proof.
  intros Hd. unfold check_and_run. fold (allowlist config).
  unfold bind at 1. unfold session_get. rewrite Hd.
  destruct (check_valid_domain d (allowlist config)); reflexivity.
Qed.

Lemma check_valid_domain_spec (d : json) (L : list string) :
  check_valid_domain d L = true <-> exists x, d = JStr x /\ x ∈ L.
Proof.
  unfold check_valid_domain.
  destruct (existsb (eq_str d) L) eqn:Hex.
  - split; [intros _|done].
    apply existsb_exists in Hex as (x & Hin & Heq).
    destruct d; try discriminate. simpl in Heq.
    apply bool_decide_eq_true in Heq as ->.
    exists x. split; [done|]. by apply list_elem_of_In.
  - split; [done|]. intros (x & -> & Hin).
    assert (existsb (eq_str (JStr x)) L = true) as Hyes; [|congruence].
    apply existsb_exists. exists x. split; [by apply list_elem_of_In|].
    simpl. by apply bool_decide_eq_true.
Qed.

(** The path of a session that holds the identity already. *)
Lemma login_cached {R} g config (func : M R) s :
  authorized g = true -> holds_identity (session s) ->
  login_required g config func s = check_and_run config func s.
Proof.
  intros Hauth Hkeys. unfold login_required. rewrite Hauth. cbn [negb].
  unfold bind at 1. unfold read_session.
  apply has_keys_spec in Hkeys. by rewrite Hkeys.
Qed.

(** The path of a fetched profile that names the identity. *)
Lemma login_fetched {R} g config (func : M R) s body d v :
  authorized g = true -> ~ holds_identity (session s) ->
  status_code (respond g (calls s) profile_request) = 200 ->
  json_body (respond g (calls s) profile_request) = Some body ->
  profile_names body d v ->
  login_required g config func s
  = check_and_run config func
      (stored "account" v (stored "domain" d (sent profile_request s))).
Proof.
  intros Hauth Hkeys Hst Hbody
    (m & ev & before & e & after & -> & Hd & Hnn & Hev & Hit & Hbefore & Hty & Hv).
  unfold login_required. rewrite Hauth. cbn [negb].
  unfold bind at 1. unfold read_session.
  rewrite has_keys_false by done. cbn [negb].
  run. fold profile_request. apply Z.eqb_eq in Hst. rewrite Hst. run.
  assert (is_not_none d = true) as Hd1 by (by destruct d).
  assert (is_not_none ev = true) as Hev1 by (by destruct ev).
  rewrite Hbody. cbn [get_or_none].
  repeat first [ rewrite Hd | rewrite Hev | rewrite Hd1 | rewrite Hev1
               | rewrite Hit | progress run
               | progress cbv [default from_option id] ].
  match goal with
  | |- context [for_emails _ ?st] =>
      rewrite (for_emails_found before e after v st) by done
  end.
  reflexivity.
Qed.

Lemma identified_domain g s d s1 :
  identified g s d s1 -> session s1 !! "domain" = Some d /\ holds_identity (session s1).
Proof.
  unfold holds_identity.
  destruct 1 as [d Hd Ha | body d v _ _ _ _]; [done|].
  cbn [stored session]. rewrite lookup_insert_ne by done.
  rewrite lookup_insert_eq. rewrite lookup_insert_eq. eauto.
Qed.

Lemma identified_flashes g s d s1 :
  identified g s d s1 -> flashes s1 = flashes s.
Proof. by destruct 1. Qed.

(** Once the caller is identified, the outcome is that of the allowlist
    check. *)
Lemma login_identified {R} g config (func : M R) s d s1 :
  authorized g = true -> identified g s d s1 ->
  login_required g config func s
  = if check_valid_domain d (allowlist config)
    then bind func (fun r => ret (Returned r)) s1
    else Ok (Rendered "sorry.html.j2" 403) (flashed whitelist_message "error" s1).
Proof.
  intros Hauth Hid.
  rewrite <- (check_and_run_eq config func s1 d)
    by apply (identified_domain g s d s1 Hid).
  destruct Hid as [d Hd Ha | body d v Hkeys Hst Hbody Hnames].
  - by apply login_cached.
  - by eapply login_fetched.
Qed.

Lemma session_inv_domain (sess : gmap string json) d :
  session_inv (<["domain" := d]> sess).
Proof. intros _. rewrite lookup_insert_eq. eauto. Qed.

Lemma session_inv_account (sess : gmap string json) d v :
  session_inv (<["account" := v]> (<["domain" := d]> sess)).
Proof.
  intros _. rewrite lookup_insert_ne by done. rewrite lookup_insert_eq. eauto.
Qed.

(** Every run of [login_required] is of one of four kinds: the redirect to
    the login page; a refusal flashed while the profile is being read; an
    uncaught exception, which takes a profile of another shape than the
    expected one; or the allowlist check, reached with a domain in the
    session and nothing flashed so far. *)
Lemma login_cases {R} g config (func : M R) s :
  (authorized g = false
   /\ login_required g config func s = Ok (Redirect "google.login") s)
  \/ (exists message s1,
        login_required g config func s
        = Ok (Rendered "sorry.html.j2" 403) (flashed message "error" s1)
        /\ flashes s1 = flashes s
        /\ (session_inv (session s) -> session_inv (session s1)))
  \/ (exists e s1,
        login_required g config func s = Raise e s1
        /\ flashes s1 = flashes s
        /\ ~ profile_shaped (respond g (calls s) profile_request))
  \/ (exists d s1,
        authorized g = true
        /\ session s1 !! "domain" = Some d
        /\ flashes s1 = flashes s
        /\ (session_inv (session s) -> session_inv (session s1))
        /\ login_required g config func s = check_and_run config func s1).
Proof.
  pattern (login_required g config func s).
  match goal with |- ?P _ => set (Q := P) end.
  unfold login_required.
  destruct (authorized g) eqn:Hauth; cbn [negb]; [|by left].
  unfold bind at 1. unfold read_session.
  destruct (forallb _ _) eqn:Hkeys; cbn [negb].
  { apply has_keys_spec in Hkeys as [[d Hd] Ha].
    right; right; right. by exists d, s. }
  run. fold profile_request.
  pose (st := sent profile_request s).
  destruct (_ =? 200) eqn:Hst; cbn [negb];
    [|right; left; by eexists _, st].
  apply Z.eqb_eq in Hst.
  destruct (json_body _) as [body|] eqn:Hbody.
  2: { right; right; left. exists ValueError, st.
       split; [done|]. split; [done|].
       intros Hs. destruct (Hs Hst) as (m' & Hb' & _). congruence. }
  destruct body as [| | | | |m]; cbn [get_or_none]; run;
    try (right; right; left; exists AttributeError, st;
         split; [done|]; split; [done|];
         intros Hs; destruct (Hs Hst) as (m' & Hb' & _); congruence).
  destruct (m !! "domain") as [d|]; cbv [default from_option id];
    cbn [is_not_none]; [|right; left; by eexists _, st].
  destruct (is_not_none d); run; [|right; left; by eexists _, st].
  pose (st1 := stored "domain" d st).
  assert (session_inv (session s) -> session_inv (session st1)) as Hinv1
    by (intros _; apply session_inv_domain).
  destruct (m !! "emails") as [ev|] eqn:Hev; cbn [is_not_none];
    [|right; left; by eexists _, st1].
  destruct (is_not_none ev) eqn:Hnn; run; [|right; left; by eexists _, st1].
  assert (forall e,
            py_iter ev = Exc e \/
            (exists es, py_iter ev = Val es /\ for_emails es st1 = Raise e st1) ->
            ~ profile_shaped (respond g (calls s) profile_request)) as Hbad.
  { intros e Hcause Hs. destruct (Hs Hst) as (m' & Hb' & He').
    rewrite Hbody in Hb'. injection Hb' as <-.
    destruct (He' ev Hev) as (es & Hit & Hes); [by destruct ev|].
    destruct Hcause as [Hexc | (es' & Hit' & Hf)]; [congruence|].
    rewrite Hit in Hit'. injection Hit' as <-.
    destruct (for_emails_shaped es st1 Hes) as [Hok | (v & Hok)]; congruence. }
  destruct (py_iter ev) as [items|e].
  2: { right; right; left. exists e, st1.
       split; [done|]. split; [done|]. apply (Hbad e). by left. }
  destruct (for_emails_cases items st1) as [Hf | [(v & Hf) | (e & Hf)]];
    pose proof Hf as Hf';
    unfold st1, st, stored, sent in Hf; cbn [session flashes calls clock] in Hf;
    rewrite Hf.
  - right; left. by eexists _, st1.
  - right; right; right. exists d, (stored "account" v st1).
    split; [done|]. split.
    { cbn [stored session st1]. rewrite lookup_insert_ne by done.
      apply lookup_insert_eq. }
    split; [done|]. split; [|done].
    intros _. apply session_inv_account.
  - right; right; left. exists e, st1.
    split; [done|]. split; [done|]. apply (Hbad e). right. by exists items.
Qed.

(** The allowlist check either runs the wrapped function, from the state
    it is reached in, or flashes the refusal. *)
Lemma check_and_run_cases {R} config (func : M R) s d :
  session s !! "domain" = Some d ->
  (check_valid_domain d (allowlist config) = true
   /\ check_and_run config func s = bind func (fun r => ret (Returned r)) s)
  \/ (check_valid_domain d (allowlist config) = false
      /\ check_and_run config func s
         = Ok (Rendered "sorry.html.j2" 403) (flashed whitelist_message "error" s)).
Proof.
  intros Hd. rewrite (check_and_run_eq config func s d Hd).
  destruct (check_valid_domain d (allowlist config)); [left|right]; done.
Qed.

Lemma calls_of_returned {R} (func : M R) s :
  calls_of (bind func (fun r => ret (Returned r)) s) = calls_of (func s).
Proof. unfold bind. by destruct (func s). Qed.

(** [login_required] keeps the order in which the two keys are written,
    provided the wrapped function does. *)
Lemma login_preserves_inv {R} g config (func : M R) s r s' :
  (forall s0 r0 s0', func s0 = Ok r0 s0' ->
                     session_inv (session s0) -> session_inv (session s0')) ->
  session_inv (session s) ->
  login_required g config func s = Ok r s' ->
  session_inv (session s').
Proof.
  intros Hfunc Hinv Hrun.
  destruct (login_cases g config func s)
    as [(_ & Hl) | [(msg & s1 & Hl & _ & Hi) | [(e & s1 & Hl & _ & _)
        | (d & s1 & _ & Hd & _ & Hi & Hl)]]];
    rewrite Hl in Hrun.
  - by injection Hrun as <- <-.
  - injection Hrun as <- <-. by apply Hi.
  - discriminate.
  - destruct (check_and_run_cases config func s1 d Hd) as [(_ & Hc)|(_ & Hc)];
      rewrite Hc in Hrun.
    + unfold bind in Hrun. destruct (func s1) as [r0 s0'|] eqn:Hf; [|discriminate].
      injection Hrun as <- <-. eapply Hfunc; [exact Hf|]. by apply Hi.
    + injection Hrun as <- <-. by apply Hi.
Qed.

(** Under that order, the profile is fetched exactly for a session without
    an account. *)
Lemma fetch_iff_no_account (sess : gmap string json) :
  session_inv sess -> (~ holds_identity sess <-> sess !! "account" = None).
Proof.
  unfold session_inv, holds_identity. intros Hinv. split.
  - intros Hno. destruct (sess !! "account") eqn:Ha; [|done].
    exfalso. apply Hno. split; [apply Hinv|]; eauto.
  - intros Ha [_ [v Hv]]. congruence.
Qed.

(** C6. The allowlist check is membership of the very string: a domain
    passes exactly when it is an element of the list, so that
    [Example.com] does not pass against [example.com]; and an identified
    caller has the wrapped function run when the domain is in the
    configured allowlist, and is refused with the whitelist message when
    it is not. *)
Theorem domain_check_exact (d : string) (L : list string) :
  (check_valid_domain (JStr d) L = true <-> d ∈ L)
  /\ check_valid_domain (JStr "Example.com") ["example.com"] = false
  /\ forall {R} g config (func : M R) s s1,
       authorized g = true ->
       allowlist config = L ->
       identified g s (JStr d) s1 ->
       (d ∈ L ->
        login_required g config func s = bind func (fun r => ret (Returned r)) s1)
       /\ (d ∉ L ->
           login_required g config func s
           = Ok (Rendered "sorry.html.j2" 403)
                (flashed "The account you are logged in with does not match the configured whitelist"
                         "error" s1)).
Proof.
  assert (check_valid_domain (JStr d) L = true <-> d ∈ L) as Hmem.
  { rewrite check_valid_domain_spec. split.
    - by intros (x & [= <-] & Hin).
    - intros Hin. by exists d. }
  split; [exact Hmem|]. split; [reflexivity|].
  intros R g config func s s1 Hauth HL Hid.
  rewrite (login_identified g config func s (JStr d) s1 Hauth Hid), HL.
  split; intros Hin.
  - apply Hmem in Hin. by rewrite Hin.
  - destruct (check_valid_domain (JStr d) L) eqn:Hc; [|reflexivity].
    exfalso. apply Hin. by apply Hmem.
Qed.

(** C7. With both [domain] and [account] in the session, a call sends no
    request of its own: the requests after the call are those before it,
    or those the wrapped function sends from the very same state; with a
    wrapped function that sends nothing they are those before it. *)
Theorem cached_identity_skips_fetch {R} g config (func : M R) s :
  holds_identity (session s) ->
  (calls_of (login_required g config func s) = calls s
   \/ calls_of (login_required g config func s) = calls_of (func s))
  /\ calls_of (login_required g config (ret tt) s) = calls s.
Proof.
  intros Hkeys.
  assert (forall R' (func' : M R'),
            calls_of (login_required g config func' s) = calls s
            \/ calls_of (login_required g config func' s) = calls_of (func' s))
    as Hany.
  { intros R' func'. destruct (authorized g) eqn:Hauth.
    - rewrite login_cached by done.
      destruct Hkeys as [[d Hd] _].
      destruct (check_and_run_cases config func' s d Hd) as [(_ & ->)|(_ & ->)].
      + right. apply calls_of_returned.
      + by left.
    - left. unfold login_required. by rewrite Hauth. }
  split; [apply Hany|].
  destruct (Hany unit (ret tt)) as [Hc|Hc]; exact Hc.
Qed.

(** C9. When the profile is fetched for a session without an account, and
    its body has a [domain] that is not null while [emails] is missing,
    null or without an entry of type [account], the call is refused, and
    the session it leaves holds the new [domain] and still no [account]. *)
Theorem partial_identity_on_deny {R} g config (func : M R) s
    (m : gmap string json) d :
  authorized g = true ->
  session s !! "account" = None ->
  status_code (respond g (calls s) profile_request) = 200 ->
  json_body (respond g (calls s) profile_request) = Some (JObj m) ->
  m !! "domain" = Some d -> d <> JNull ->
  no_account_email m ->
  exists message s',
    login_required g config func s = Ok (Rendered "sorry.html.j2" 403) s'
    /\ flashes s' = flashes s ++ [(message, "error")]
    /\ session s' = <["domain" := d]> (session s)
    /\ session s' !! "domain" = Some d
    /\ session s' !! "account" = None.
Proof.
  intros Hauth Hacct Hst Hbody Hd Hnn Hemails.
  assert (~ holds_identity (session s)) as Hkeys.
  { intros [_ [v Hv]]. congruence. }
  assert (is_not_none d = true) as Hd1 by (by destruct d).
  assert (<["domain" := d]> (session s) !! "account" = None) as Hleft.
  { by rewrite lookup_insert_ne. }
  unfold login_required. rewrite Hauth. cbn [negb].
  unfold bind at 1. unfold read_session.
  rewrite has_keys_false by done. cbn [negb].
  run. fold profile_request. apply Z.eqb_eq in Hst. rewrite Hst. run.
  rewrite Hbody. cbn [get_or_none]. rewrite Hd.
  cbv [default from_option id]. rewrite Hd1. run. rewrite Hd. run.
  destruct Hemails as [Hev | [Hev | (ev & es & Hev & Hit & Hes)]];
    rewrite Hev; cbn [is_not_none]; run.
  - eexists _, _. split; [reflexivity|]. cbn [session flashes].
    by rewrite lookup_insert_eq.
  - eexists _, _. split; [reflexivity|]. cbn [session flashes].
    by rewrite lookup_insert_eq.
  - assert (is_not_none ev = true) as -> by (by destruct ev).
    run. rewrite Hit. run.
    match goal with
    | |- context [for_emails es ?st] => rewrite (for_emails_none es st Hes)
    end.
    eexists _, _. split; [reflexivity|]. cbn [session flashes].
    by rewrite lookup_insert_eq.
Qed.

(** C10. When the configuration does not define [ALLOWED_GSUITE_DOMAINS],
    the allowlist is the empty list: whatever the domain, an identified
    caller is refused with the whitelist message, and no run of
    [login_required] ends with the wrapped function having been run. *)
Theorem missing_allowlist_denies config :
  config !! ALLOWED_GSUITE_DOMAINS = None ->
  allowlist config = []
  /\ (forall {R} g (func : M R) s d s1,
        authorized g = true -> identified g s d s1 ->
        login_required g config func s
        = Ok (Rendered "sorry.html.j2" 403)
             (flashed "The account you are logged in with does not match the configured whitelist"
                      "error" s1))
  /\ (forall {R} g (func : M R) s o s',
        login_required g config func s = Ok o s' ->
        forall r, o <> Returned r).
Proof.
  intros Hconf.
  assert (allowlist config = []) as HL by (unfold allowlist; by rewrite Hconf).
  split; [exact HL|]. split.
  - intros R g func s d s1 Hauth Hid.
    rewrite (login_identified g config func s d s1 Hauth Hid), HL.
    reflexivity.
  - intros R g func s o s' Hrun r ->.
    destruct (login_cases g config func s)
      as [(_ & Hl) | [(msg & s1 & Hl & _) | [(e & s1 & Hl & _ & _)
          | (d & s1 & _ & Hd & _ & _ & Hl)]]];
      rewrite Hl in Hrun; try discriminate.
    rewrite (check_and_run_eq config func s1 d Hd), HL in Hrun.
    discriminate.
Qed.


End Enforce.

(** C8 on a URL without a [project] parameter. *)
Lemma grant_without_project_witness :
  exists s',
    add_conditional_binding Scenario.smooth Scenario.no_project_form Scenario.signed_in
    = Ok tt s' /\
    flashes s' = [("Could not find project ID in provided URL", "error")] /\
    calls s' = [] /\
    session s' = session Scenario.signed_in.
Proof.
  apply (grant_without_project Scenario.smooth Scenario.no_project_form
           Scenario.signed_in).
  reflexivity.
Defined.

(** C4 on a fetch answered with 403. *)
Lemma policy_fetch_refused_witness :
  exists s' message,
    add_conditional_binding Scenario.refusing_fetch Scenario.request_form Scenario.signed_in
    = Ok tt s' /\
    flashes s' = [(message, "error")] /\
    message = "Could not fetch IAM policy for: my-proj. This likely means the project ID was invalid or you do not have access to that project." /\
    mentions message "my-proj" /\
    calls s' = [get_policy_request "my-proj"] /\
    forall q body, set_policy_request q body <> get_policy_request "my-proj".
Proof.
  apply (policy_fetch_refused Scenario.refusing_fetch Scenario.request_form
           Scenario.signed_in "my-proj").
  - reflexivity.
  - discriminate.
  - simpl. discriminate.
Defined.

(** C5 on a write answered with 400 and the message [bad role]. *)
Lemma policy_write_refused_witness :
  exists s',
    add_conditional_binding Scenario.refusing_write Scenario.request_form Scenario.signed_in
    = Ok tt s' /\
    flashes s' = [("Could not apply new policy: bad role", "error")].
Proof.
  apply (policy_write_refused Scenario.refusing_write Scenario.request_form
           Scenario.signed_in "my-proj" Scenario.policy_fields
           [Scenario.owner_binding] "2019-01-01T00:15:00+00:00"
           (JStr "a@acme.com") Scenario.bad_role_fields Scenario.bad_role_error
           "bad role").
  - reflexivity.
  - discriminate.
  - reflexivity.
  - reflexivity.
  - vm_compute. reflexivity.
  - vm_compute. reflexivity.
  - vm_compute. reflexivity.
  - simpl. discriminate.
  - reflexivity.
  - vm_compute. reflexivity.
  - vm_compute. reflexivity.
Defined.

(** C2 on a grant of thirty minutes, a quarter of an hour before the new
    year. *)
Lemma grant_appends_binding_witness :
  exists (binding condition written : gmap string json),
    calls_of (add_conditional_binding Scenario.smooth Scenario.request_form
                Scenario.signed_in)
    = [get_policy_request "my-proj";
       set_policy_request "my-proj" (JObj {[ "policy" := JObj written ]})] /\
    written !! "bindings" = Some (JArr [Scenario.owner_binding; JObj binding]) /\
    written !! "etag" = Some (JStr "BwWWja0YfJA=") /\
    binding !! "condition" = Some (JObj condition) /\
    condition !! "expression"
    = Some (JStr ("request.time < timestamp(" +:+ dquote
                  +:+ "2019-01-01T00:15:00+00:00" +:+ dquote +:+ ")")) /\
    condition !! "title" = Some (JStr "granted by a@acme.com") /\
    binding !! "members" = Some (JArr [JStr "user:bob@acme.com"]) /\
    binding !! "role" = Some (JStr "roles/viewer") /\
    exists later,
      read_iso_utc "2019-01-01T00:15:00+00:00" = Some later
      /\ valid_date later /\ valid_time later
      /\ minutes_of later = minutes_of Scenario.new_year_eve + 30.
Proof.
  destruct (grant_appends_binding Scenario.smooth Scenario.request_form
              Scenario.signed_in "my-proj" Scenario.policy_fields
              [Scenario.owner_binding] "2019-01-01T00:15:00+00:00" "a@acme.com")
    as (binding & condition & written & Hcalls & Hb & Hrest & Hc & He & Ht
        & Hm & Hr & _ & _ & delta & later & _ & _ & _ & _ & Hdate & Htime
        & Hread & Hlater).
  - reflexivity.
  - discriminate.
  - reflexivity.
  - reflexivity.
  - vm_compute. reflexivity.
  - vm_compute. reflexivity.
  - vm_compute. reflexivity.
  - exists binding, condition, written.
    split; [exact Hcalls|]. split; [exact Hb|].
    split; [rewrite Hrest by discriminate; vm_compute; reflexivity|].
    split; [exact Hc|]. split; [exact He|]. split; [exact Ht|].
    split; [exact Hm|]. split; [exact Hr|].
    exists (wall later).
    split; [exact Hread|]. split; [exact Hdate|]. split; [exact Htime|].
    apply Hlater. unfold valid_time. simpl. lia.
Defined.

Section Faults.

Context `{PyLib}.



End Faults.




(** A fresh session is identified by the profile of the scenarios. *)
Lemma fresh_identified :
  identified Scenario.smooth Scenario.fresh (JStr "acme.com")
    (stored "account" (JStr "a@acme.com")
       (stored "domain" (JStr "acme.com") (sent profile_request Scenario.fresh))).
Proof.
  apply (identified_fetched _ _ (JObj Scenario.profile_fields)).
  - intros [[x Hx] _]. vm_compute in Hx. discriminate.
  - reflexivity.
  - reflexivity.
  - exists Scenario.profile_fields, (JArr [JObj Scenario.account_entry]), [],
      Scenario.account_entry, [].
    repeat split; try (vm_compute; reflexivity); [discriminate|constructor].
Qed.

Lemma signed_in_identified :
  identified Scenario.smooth Scenario.signed_in (JStr "acme.com") Scenario.signed_in.
Proof.
  apply identified_cached; [vm_compute; reflexivity|].
  eexists. vm_compute. reflexivity.
Qed.

(** C6 on the fresh session: allowed under an allowlist that holds
    [acme.com], refused under one that does not. *)
Lemma domain_check_exact_witness :
  login_required Scenario.smooth Scenario.acme_only Scenario.idle Scenario.fresh
  = Ok (Returned tt)
       (stored "account" (JStr "a@acme.com")
          (stored "domain" (JStr "acme.com") (sent profile_request Scenario.fresh)))
  /\ login_required Scenario.smooth Scenario.others_only Scenario.idle Scenario.fresh
     = Ok (Rendered "sorry.html.j2" 403)
          (flashed "The account you are logged in with does not match the configured whitelist"
             "error"
             (stored "account" (JStr "a@acme.com")
                (stored "domain" (JStr "acme.com") (sent profile_request Scenario.fresh)))).
Proof.
  split.
  - destruct (domain_check_exact "acme.com" ["acme.com"]) as (_ & _ & Hrun).
    apply (Hrun unit Scenario.smooth Scenario.acme_only Scenario.idle Scenario.fresh
             _ eq_refl eq_refl fresh_identified).
    apply list_elem_of_here.
  - destruct (domain_check_exact "acme.com" ["other.com"]) as (_ & _ & Hrun).
    apply (Hrun unit Scenario.smooth Scenario.others_only Scenario.idle Scenario.fresh
             _ eq_refl eq_refl fresh_identified).
    intros Hin. apply list_elem_of_singleton in Hin. discriminate.
Defined.

(** C7 on the session that holds the identity. *)
Lemma cached_identity_skips_fetch_witness :
  (calls_of (login_required Scenario.smooth Scenario.acme_only
               (add_conditional_binding Scenario.smooth Scenario.request_form)
               Scenario.signed_in) = []
   \/ calls_of (login_required Scenario.smooth Scenario.acme_only
                  (add_conditional_binding Scenario.smooth Scenario.request_form)
                  Scenario.signed_in)
      = calls_of (add_conditional_binding Scenario.smooth Scenario.request_form
                    Scenario.signed_in))
  /\ calls_of (login_required Scenario.smooth Scenario.acme_only (ret tt)
                 Scenario.signed_in) = [].
Proof.
  apply (cached_identity_skips_fetch Scenario.smooth Scenario.acme_only
           (add_conditional_binding Scenario.smooth Scenario.request_form)
           Scenario.signed_in).
  split; eexists; vm_compute; reflexivity.
Defined.

(** C9 on a profile with a domain and no [emails]. *)
Lemma partial_identity_on_deny_witness :
  exists message s',
    login_required Scenario.domain_only Scenario.acme_only Scenario.idle Scenario.fresh
    = Ok (Rendered "sorry.html.j2" 403) s'
    /\ flashes s' = [(message, "error")]
    /\ session s' = <["domain" := JStr "acme.com"]> ∅
    /\ session s' !! "domain" = Some (JStr "acme.com")
    /\ session s' !! "account" = None.
Proof.
  apply (partial_identity_on_deny Scenario.domain_only Scenario.acme_only
           Scenario.idle Scenario.fresh Scenario.domain_only_fields (JStr "acme.com")).
  - reflexivity.
  - vm_compute. reflexivity.
  - reflexivity.
  - reflexivity.
  - vm_compute. reflexivity.
  - discriminate.
  - left. vm_compute. reflexivity.
Defined.

(** C10 on a configuration without the key. *)
Lemma missing_allowlist_denies_witness :
  allowlist Scenario.unconfigured = []
  /\ login_required Scenario.smooth Scenario.unconfigured Scenario.idle Scenario.signed_in
     = Ok (Rendered "sorry.html.j2" 403)
          (flashed "The account you are logged in with does not match the configured whitelist"
             "error" Scenario.signed_in).
Proof.
  destruct (missing_allowlist_denies Scenario.unconfigured) as (Hempty & Hdeny & _).
  - vm_compute. reflexivity.
  - split; [exact Hempty|].
    apply (Hdeny unit Scenario.smooth Scenario.idle Scenario.signed_in
             (JStr "acme.com") Scenario.signed_in eq_refl signed_in_identified).
Defined.


(** * More of the gate and of the grantor *)

Section Paths.

Implicit Types (g : google) (s : state) (config : gmap string (list string)).

Lemma getitem_exn x k e : getitem x k = Exc e -> e = TypeError \/ e = KeyError k.
Proof.
  destruct x as [| | | | |m]; cbn [getitem]; try (intros [= <-]; by left).
  destruct (m !! k); [discriminate|]. intros [= <-]. by right.
Qed.

(** The loop ends by running out, by storing the account, or by an
    exception of a subscript; it changes nothing else. *)
Lemma for_emails_paths es s :
  for_emails es s = Ok false s
  \/ (exists v, for_emails es s = Ok true (stored "account" v s))
  \/ (exists e, for_emails es s = Raise e s /\ gate_exn e).
Proof.
  unfold gate_exn.
  induction es as [|email es IH]; [by left|].
  cbn [for_emails]. run.
  destruct (getitem email "type") as [t|e] eqn:Ht.
  2: { right; right. exists e. split; [done|].
       destruct (getitem_exn _ _ _ Ht) as [->| ->]; tauto. }
  run. destruct (eq_str t "account"); [|exact IH].
  run. destruct (getitem email "value") as [v|e] eqn:Hv; run.
  - right; left. by eexists.
  - right; right. exists e. split; [done|].
    destruct (getitem_exn _ _ _ Hv) as [->| ->]; tauto.
Qed.

(** Every run of [login_required], with the state it stands in: the
    redirect, from the state of the call; a refusal or an exception of the
    profile lines, after the profile request; or the allowlist check, from a
    state that holds the identity. *)
Lemma login_paths {R} g config (func : M R) s :
  exists s1,
    (s1 = s
     \/ (authorized g = true /\ ~ holds_identity (session s) /\ fetched_state s s1))
    /\ ((authorized g = false /\ s1 = s
         /\ login_required g config func s = Ok (Redirect "google.login") s)
        \/ (exists message,
              s1 <> s
              /\ login_required g config func s
                 = Ok (Rendered "sorry.html.j2" 403) (flashed message "error" s1))
        \/ (exists e,
              gate_exn e /\ login_required g config func s = Raise e s1)
        \/ (authorized g = true /\ holds_identity (session s1)
            /\ login_required g config func s = check_and_run config func s1)).
Proof.
  pattern (login_required g config func s).
  match goal with |- ?P _ => set (Q := P) end.
  unfold login_required.
  destruct (authorized g) eqn:Hauth; cbn [negb].
  2: { exists s. split; [by left|]. by left. }
  unfold bind at 1. unfold read_session.
  destruct (forallb _ _) eqn:Hkeys; cbn [negb].
  { apply has_keys_spec in Hkeys.
    exists s. split; [by left|]. right; right; right. done. }
  assert (~ holds_identity (session s)) as Hno.
  { intros Hh. apply has_keys_spec in Hh. congruence. }
  run. fold profile_request.
  pose (st := sent profile_request s).
  assert (st <> s) as Hst_ne.
  { intros Heq. apply (f_equal calls) in Heq. cbn [st sent calls] in Heq.
    apply (f_equal length) in Heq. rewrite length_app in Heq.
    cbn [length] in Heq. lia. }
  assert (forall s1, fetched_state s s1 ->
            s1 = s \/ (true = true /\ ~ holds_identity (session s) /\ fetched_state s s1))
    as Hfetched by (intros s1 Hf; right; done).
  assert (fetched_state s st) as Hf0 by (by left).
  destruct (_ =? 200) eqn:Hst; cbn [negb].
  2: { exists st. split; [by apply Hfetched|]. right; left. by eexists. }
  destruct (json_body _) as [body|] eqn:Hbody.
  2: { exists st. split; [by apply Hfetched|]. right; right; left.
       exists ValueError. split; [by left|done]. }
  destruct body as [| | | | |m]; cbn [get_or_none]; run;
    try (exists st; split; [by apply Hfetched|]; right; right; left;
         exists AttributeError; split; [right; by left|done]).
  destruct (m !! "domain") as [d|]; cbv [default from_option id];
    cbn [is_not_none].
  2: { exists st. split; [by apply Hfetched|]. right; left. by eexists. }
  destruct (is_not_none d); run.
  2: { exists st. split; [by apply Hfetched|]. right; left. by eexists. }
  pose (st1 := stored "domain" d st).
  assert (fetched_state s st1) as Hf1 by (right; left; by exists d).
  assert (st1 <> s) as Hst1_ne.
  { intros Heq. apply (f_equal calls) in Heq. cbn [st1 st stored sent calls] in Heq.
    apply (f_equal length) in Heq. rewrite length_app in Heq.
    cbn [length] in Heq. lia. }
  destruct (m !! "emails") as [ev|] eqn:Hev; cbn [is_not_none].
  2: { exists st1. split; [by apply Hfetched|]. right; left. by eexists. }
  destruct (is_not_none ev) eqn:Hnn; run.
  2: { exists st1. split; [by apply Hfetched|]. right; left. by eexists. }
  destruct (py_iter ev) as [items|e] eqn:Hit.
  2: { exists st1. split; [by apply Hfetched|]. right; right; left.
       exists e. split; [|done].
       destruct ev; cbn [py_iter] in Hit; try discriminate;
         injection Hit as <-; right; right; by left. }
  destruct (for_emails_paths items st1) as [Hf | [(v & Hf) | (e & Hf & He)]];
    unfold st1, st, stored, sent in Hf; cbn [session flashes calls clock] in Hf;
    rewrite Hf.
  - exists st1. split; [by apply Hfetched|]. right; left. by eexists.
  - exists (stored "account" v st1). split.
    { apply Hfetched. right; right. by exists d, v. }
    right; right; right. split; [done|]. split; [|done].
    split; cbn [stored session st1 st sent].
    + rewrite lookup_insert_ne by done. rewrite lookup_insert_eq. eauto.
    + rewrite lookup_insert_eq. eauto.
  - exists st1. split; [by apply Hfetched|]. right; right; left. by exists e.
Qed.

Lemma fetched_state_frame s s1 : fetched_state s s1 -> gate_frame s s1.
Proof.
  unfold gate_frame.
  intros [-> | [(d & ->) | (d & v & ->)]]; cbn [sent stored clock flashes session calls];
    (split; [done|]); (split; [done|]); (split; [|by right]); intros k Hd Ha.
  - done.
  - by rewrite lookup_insert_ne.
  - by rewrite !lookup_insert_ne.
Qed.

End Paths.

Section Gate.

Implicit Types (g : google) (s : state) (config : gmap string (list string)).

Lemma gate_frame_refl s : gate_frame s s.
Proof. unfold gate_frame. split; [done|]. split; [done|]. split; [done|]. by left. Qed.

Lemma returned_inv {R} (func : M R) s1 r s' :
  bind func (fun x => ret (Returned x)) s1 = Ok (Returned r) s' -> func s1 = Ok r s'.
Proof.
  unfold bind, ret. destruct (func s1) as [x s2|e s2]; [|discriminate].
  by intros [= -> ->].
Qed.

Lemma cached_calls g config s :
  holds_identity (session s) ->
  calls_of (login_required g config (ret tt) s) = calls s.
Proof.
  intros Hkeys. destruct (authorized g) eqn:Hauth.
  - rewrite login_cached by done. destruct Hkeys as [[d Hd] _].
    by destruct (check_and_run_cases config (ret tt) s d Hd) as [(_ & ->)|(_ & ->)].
  - unfold login_required. by rewrite Hauth.
Qed.

(** One run of the lines before the allowlist check, with what is known of
    the answer in the context. *)
Ltac gate_run :=
  unfold login_required;
  repeat first
    [ match goal with
      | H : ?l = _ |- context [?l] => rewrite H
      end
    | progress run
    | progress cbn [negb get_or_none is_not_none]
    | progress cbv [default from_option id] ];
  try reflexivity.

(** Whether and where the allowlist is consulted is settled by the caller,
    the session and the profile alone: either the call ends before the
    check, in the same way whatever function is wrapped, or the check is
    made for every wrapped function, from one state that holds the
    identity. *)
Lemma login_paths_uniform g config s :
  (exists o : outcome (route Empty_set),
     forall R (func : M R), login_required g config func s = stopped o)
  \/ (exists s1,
        authorized g = true
        /\ (s1 = s \/ fetched_state s s1)
        /\ holds_identity (session s1)
        /\ forall R (func : M R),
             login_required g config func s = check_and_run config func s1).
Proof.
  destruct (authorized g) eqn:Hauth.
  2: { left. exists (Ok (Redirect "google.login") s). intros R func. gate_run. }
  destruct (forallb (fun key => bool_decide (is_Some (session s !! key)))
              ["domain"; "account"]) eqn:Hkeys.
  { right. exists s. split; [done|]. split; [by left|].
    split; [by apply has_keys_spec|]. intros R func. gate_run. }
  pose (st := sent profile_request s).
  destruct (status_code (respond g (calls s) (Get "/plus/v1/people/me")) =? 200)
    eqn:Hst.
  2: { left.
       exists (Ok (Rendered "sorry.html.j2" 403)
                 (flashed "Could not get your profile information from Google" "error" st)).
       intros R func. gate_run. }
  destruct (json_body (respond g (calls s) (Get "/plus/v1/people/me")))
    as [body|] eqn:Hbody.
  2: { left. exists (Raise ValueError st). intros R func. gate_run. }
  destruct body as [| | | | |m];
    try solve [left; exists (Raise AttributeError st); intros R func; gate_run].
  destruct (m !! "domain") as [d|] eqn:Hd.
  2: { left.
       exists (Ok (Rendered "sorry.html.j2" 403)
                 (flashed "The response from the Google Plus API is missing a required field: domain"
                          "error" st)).
       intros R func. gate_run. }
  destruct (is_not_none d) eqn:Hnn.
  2: { left.
       exists (Ok (Rendered "sorry.html.j2" 403)
                 (flashed "The response from the Google Plus API is missing a required field: domain"
                          "error" st)).
       intros R func. gate_run. }
  pose (st1 := stored "domain" d st).
  destruct (m !! "emails") as [ev|] eqn:Hev.
  2: { left.
       exists (Ok (Rendered "sorry.html.j2" 403)
                 (flashed "The response from the Google Plus API is missing a required field: emails"
                          "error" st1)).
       intros R func. gate_run. }
  destruct (is_not_none ev) eqn:Hnn2.
  2: { left.
       exists (Ok (Rendered "sorry.html.j2" 403)
                 (flashed "The response from the Google Plus API is missing a required field: emails"
                          "error" st1)).
       intros R func. gate_run. }
  destruct (py_iter ev) as [items|e] eqn:Hit.
  2: { left. exists (Raise e st1). intros R func. gate_run. }
  destruct (for_emails_paths items st1) as [Hf | [(v & Hf) | (e & Hf & _)]];
    unfold st1, st, stored, sent, profile_request in Hf;
    cbn [session flashes calls clock] in Hf.
  - left.
    exists (Ok (Rendered "sorry.html.j2" 403)
              (flashed "The response from the Google Plus API did not include an email of type: account"
                       "error" st1)).
    intros R func. gate_run.
  - right. exists (stored "account" v st1).
    split; [done|]. split; [right; right; right; by exists d, v|].
    split.
    { split; cbn [stored session st1 st sent].
      - rewrite lookup_insert_ne by done. rewrite lookup_insert_eq. eauto.
      - rewrite lookup_insert_eq. eauto. }
    intros R func. gate_run.
  - left. exists (Raise e st1). intros R func. gate_run.
Qed.

(** X1. Whether the wrapped function is run is settled before it is looked
    at.  Either it is run, whatever it is: then the caller is authorized,
    the session holds both keys of the identity and a domain that is a
    string of the configured allowlist, the function starts from a state
    that differs from the state of the call by the gate's own writes only,
    and what it returns or raises is what the route returns or raises.  Or
    the call ends in the same redirect, refusal or exception whatever
    function is wrapped: the function has no part in the run. *)
Theorem wrapped_runs_only_when_allowed g config s :
  (exists s1 d,
     authorized g = true
     /\ gate_frame s s1
     /\ holds_identity (session s1)
     /\ session s1 !! "domain" = Some (JStr d)
     /\ d ∈ allowlist config
     /\ forall R (func : M R),
          login_required g config func s
          = bind func (fun r => ret (Returned r)) s1)
  \/ (exists o : outcome (route Empty_set),
        forall R (func : M R), login_required g config func s = stopped o).
Proof.
  destruct (login_paths_uniform g config s)
    as [(o & Ho) | (s1 & Hauth & Hs1 & Hkeys & Hrun)].
  { right. by exists o. }
  pose proof Hkeys as [[d Hd] _].
  destruct (check_valid_domain d (allowlist config)) eqn:Hc.
  - left. apply check_valid_domain_spec in Hc as Hx. destruct Hx as (x & -> & Hin).
    exists s1, x. split; [done|]. split.
    { destruct Hs1 as [->|Hf]; [apply gate_frame_refl|].
      by apply fetched_state_frame. }
    split; [done|]. split; [done|]. split; [done|].
    intros R func. rewrite Hrun, (check_and_run_eq config func s1 _ Hd).
    by rewrite Hc.
  - right.
    exists (Ok (Rendered "sorry.html.j2" 403) (flashed whitelist_message "error" s1)).
    intros R func. rewrite Hrun, (check_and_run_eq config func s1 d Hd).
    by rewrite Hc.
Qed.

(** X2. When the profile request is answered with a status other than 200,
    the caller is refused with the message that the profile could not be
    got; the request is the only trace the call leaves: nothing is stored
    in the session. *)
Theorem profile_fetch_refused {R} g config (func : M R) s :
  authorized g = true ->
  ~ holds_identity (session s) ->
  status_code (respond g (calls s) profile_request) <> 200 ->
  login_required g config func s
  = Ok (Rendered "sorry.html.j2" 403)
       (flashed "Could not get your profile information from Google" "error"
                (sent profile_request s)).
Proof.
  intros Hauth Hkeys Hst.
  unfold login_required. rewrite Hauth. cbn [negb].
  unfold bind at 1. unfold read_session.
  rewrite has_keys_false by done. cbn [negb].
  run. fold profile_request. apply Z.eqb_neq in Hst. by rewrite Hst.
Qed.

(** X3. When the fetched profile has no [domain], or a null one, the
    caller is refused with the message that names the missing field, and
    nothing is stored in the session, whatever [emails] holds. *)
Theorem profile_without_domain {R} g config (func : M R) s (m : gmap string json) :
  authorized g = true ->
  ~ holds_identity (session s) ->
  status_code (respond g (calls s) profile_request) = 200 ->
  json_body (respond g (calls s) profile_request) = Some (JObj m) ->
  m !! "domain" = None \/ m !! "domain" = Some JNull ->
  login_required g config func s
  = Ok (Rendered "sorry.html.j2" 403)
       (flashed "The response from the Google Plus API is missing a required field: domain"
                "error" (sent profile_request s)).
Proof.
  intros Hauth Hkeys Hst Hbody Hd.
  unfold login_required. rewrite Hauth. cbn [negb].
  unfold bind at 1. unfold read_session.
  rewrite has_keys_false by done. cbn [negb].
  run. fold profile_request. apply Z.eqb_eq in Hst. rewrite Hst. run.
  rewrite Hbody. cbn [get_or_none].
  destruct Hd as [-> | ->]; reflexivity.
Qed.

(** X4. When the fetched profile names a domain and an account (the value
    of the first entry of [emails] of type [account]; what follows that
    entry is not read), both are stored in the session before the
    allowlist is consulted, so also when the caller is then refused; and a
    later call on a session with these keys sends no request. *)
Theorem fetched_identity_is_cached {R} g config (func : M R) s body d v :
  authorized g = true ->
  ~ holds_identity (session s) ->
  status_code (respond g (calls s) profile_request) = 200 ->
  json_body (respond g (calls s) profile_request) = Some body ->
  profile_names body d v ->
  exists s1,
    s1 = stored "account" v (stored "domain" d (sent profile_request s))
    /\ session s1 !! "domain" = Some d
    /\ session s1 !! "account" = Some v
    /\ login_required g config func s
       = (if check_valid_domain d (allowlist config)
          then bind func (fun r => ret (Returned r)) s1
          else Ok (Rendered "sorry.html.j2" 403)
                  (flashed "The account you are logged in with does not match the configured whitelist"
                           "error" s1))
    /\ forall g' config' s2,
         session s2 = session s1 ->
         calls_of (login_required g' config' (ret tt) s2) = calls s2.
Proof.
  intros Hauth Hkeys Hst Hbody Hnames.
  eexists. split; [reflexivity|].
  assert (session (stored "account" v (stored "domain" d (sent profile_request s)))
            !! "domain" = Some d) as Hd.
  { cbn [stored session]. rewrite lookup_insert_ne by done. apply lookup_insert_eq. }
  assert (session (stored "account" v (stored "domain" d (sent profile_request s)))
            !! "account" = Some v) as Hv.
  { cbn [stored session]. apply lookup_insert_eq. }
  split; [exact Hd|]. split; [exact Hv|]. split.
  - rewrite (login_fetched g config func s body d v) by done.
    by apply check_and_run_eq.
  - intros g' config' s2 Hs2. apply cached_calls.
    unfold holds_identity. rewrite Hs2, Hd, Hv. eauto.
Qed.

(** X5. On its own account [login_required] sends at most one request, the
    profile request, and only for an authorized caller whose session lacks
    a key of the identity; it flashes at most one message, of category
    [error]; it leaves the clock and every session key but [domain] and
    [account] as they were.  An unauthorized caller is redirected from the
    very state of the call. *)
Theorem gate_touches_only_its_own {R} g config (func : M R) s :
  (authorized g = false ->
   login_required g config func s = Ok (Redirect "google.login") s)
  /\ exists s1,
       gate_frame s s1
       /\ (calls s1 <> calls s -> authorized g = true /\ ~ holds_identity (session s))
       /\ (login_required g config func s = Ok (Redirect "google.login") s1
           \/ (exists message,
                 login_required g config func s
                 = Ok (Rendered "sorry.html.j2" 403) (flashed message "error" s1))
           \/ (exists e, login_required g config func s = Raise e s1)
           \/ login_required g config func s
              = bind func (fun r => ret (Returned r)) s1).
Proof.
  split.
  { intros Hauth. unfold login_required. by rewrite Hauth. }
  destruct (login_paths g config func s) as (s1 & Hs1 & Hout).
  exists s1. split.
  { destruct Hs1 as [->|(_ & _ & Hf)]; [apply gate_frame_refl|].
    by apply fetched_state_frame. }
  split.
  { intros Hne. destruct Hs1 as [->|(Hauth & Hkeys & _)]; done. }
  destruct Hout as [(_ & -> & Hl) | [(msg & _ & Hl) | [(e & _ & Hl) | (_ & Hkeys & Hl)]]].
  - by left.
  - right; left. by exists msg.
  - right; right; left. by exists e.
  - destruct Hkeys as [[d Hd] _].
    destruct (check_and_run_cases config func s1 d Hd) as [(_ & Hc)|(_ & Hc)];
      rewrite Hc in Hl.
    + by right; right; right.
    + right; left. by eexists.
Qed.

(** X6. [login_required] writes [domain] before [account] and never one
    without the other being there: a session in which an account comes
    with a domain is left in such a state by every call that returns
    (provided the wrapped function does the same), so that the next call
    fetches the profile exactly when the account is missing. *)
Theorem session_order_kept {R} g config (func : M R) s r s' :
  (forall s0 r0 s0', func s0 = Ok r0 s0' ->
                     session_inv (session s0) -> session_inv (session s0')) ->
  session_inv (session s) ->
  login_required g config func s = Ok r s' ->
  session_inv (session s')
  /\ (~ holds_identity (session s') <-> session s' !! "account" = None).
Proof.
  intros Hfunc Hinv Hrun.
  assert (session_inv (session s')) as Hinv'
    by (by apply (login_preserves_inv g config func s r s')).
  split; [exact Hinv'|]. by apply fetch_iff_no_account.
Qed.

(** X7. The domain of the profile is stored as it comes: when it is not a
    string, the caller is identified and then refused with the whitelist
    message, whatever the allowlist holds. *)
Theorem non_string_domain_refused {R} g config (func : M R) s d s1 :
  authorized g = true ->
  identified g s d s1 ->
  (forall x, d <> JStr x) ->
  login_required g config func s
  = Ok (Rendered "sorry.html.j2" 403)
       (flashed "The account you are logged in with does not match the configured whitelist"
                "error" s1).
Proof.
  intros Hauth Hid Hns.
  rewrite (login_identified g config func s d s1 Hauth Hid).
  destruct (check_valid_domain d (allowlist config)) eqn:Hc; [|reflexivity].
  apply check_valid_domain_spec in Hc as (x & -> & _). by destruct (Hns x).
Qed.

Lemma for_emails_raise_at before bad rest e s :
  Forall other_email before ->
  getitem bad "type" = Exc e
  \/ (exists t, getitem bad "type" = Val t /\ eq_str t "account" = true
                /\ getitem bad "value" = Exc e) ->
  for_emails (before ++ bad :: rest) s = Raise e s.
Proof.
  intros Hbefore Hbad.
  induction Hbefore as [|e' es (t & Ht & Hne) _ IH]; cbn [for_emails app]; run.
  - destruct Hbad as [-> | (t & -> & Hacc & Hv)]; [done|].
    run. rewrite Hacc. run. by rewrite Hv.
  - rewrite Ht. run. by rewrite Hne.
Qed.

(** X8. The entries of [emails] are read in order up to the first of type
    [account]: when an entry met on the way cannot be read (its [type]
    cannot be subscripted, or it is of type [account] and its [value]
    cannot), the exception of that subscript leaves the call uncaught, with
    the domain already stored in the session and nothing flashed, whatever
    follows the entry. *)
Theorem unreadable_entry_raises {R} g config (func : M R) s
    (m : gmap string json) d ev before bad rest e :
  authorized g = true ->
  ~ holds_identity (session s) ->
  status_code (respond g (calls s) profile_request) = 200 ->
  json_body (respond g (calls s) profile_request) = Some (JObj m) ->
  m !! "domain" = Some d -> d <> JNull ->
  m !! "emails" = Some ev ->
  py_iter ev = Val (before ++ bad :: rest) ->
  Forall other_email before ->
  getitem bad "type" = Exc e
  \/ (exists t, getitem bad "type" = Val t /\ eq_str t "account" = true
                /\ getitem bad "value" = Exc e) ->
  login_required g config func s
  = Raise e (stored "domain" d (sent profile_request s)).
Proof.
  intros Hauth Hkeys Hst Hbody Hd Hnn Hev Hit Hbefore Hbad.
  assert (is_not_none d = true) as Hd1 by (by destruct d).
  assert (is_not_none ev = true) as Hev1 by (by destruct ev).
  unfold login_required. rewrite Hauth. cbn [negb].
  unfold bind at 1. unfold read_session.
  rewrite has_keys_false by done. cbn [negb].
  run. fold profile_request. apply Z.eqb_eq in Hst. rewrite Hst. run.
  rewrite Hbody. cbn [get_or_none].
  repeat first [ rewrite Hd | rewrite Hev | rewrite Hd1 | rewrite Hev1
               | rewrite Hit | progress run
               | progress cbv [default from_option id] ].
  match goal with
  | |- context [for_emails _ ?st] =>
      rewrite (for_emails_raise_at before bad rest e st Hbefore Hbad)
  end.
  reflexivity.
Qed.

End Gate.

Section Grantor.

Context `{PyLib}.

Implicit Types (g : google) (f : form) (s : state).

Lemma expiry_at_exn c n e : expiry_at c n = Exc e -> e = OverflowError.
Proof.
  unfold expiry_at, timedelta_minutes, datetime_add.
  destruct (_ >? _); [by intros [= <-]|].
  destruct (_ && _); [|by intros [= <-]].
  by destruct (fromordinal _) as [[y m] d].
Qed.

(** What the answer to the write leads to. *)
Lemma report_write_paths (r : response) s :
  (status_code r = 200
   /\ report_write r s
      = Ok tt (flashed "Great success, they'll have access in a minute!" "success" s))
  \/ (status_code r <> 200
      /\ ((exists message,
             report_write r s
             = Ok tt (flashed ("Could not apply new policy: " +:+ message) "error" s))
          \/ (exists e, report_exn e /\ report_write r s = Raise e s))).
Proof.
  unfold report_write, report_exn.
  destruct (status_code r =? 200) eqn:Hst; cbn [negb].
  { apply Z.eqb_eq in Hst. by left. }
  apply Z.eqb_neq in Hst. right. split; [done|]. run.
  destruct (json_body r) as [body|]; [|right; exists ValueError; tauto].
  destruct (getitem body "error") as [err|e] eqn:He.
  2: { right. exists e. destruct (getitem_exn _ _ _ He) as [->| ->]; tauto. }
  destruct (getitem err "message") as [msg|e] eqn:Hm.
  2: { right. exists e. destruct (getitem_exn _ _ _ Hm) as [->| ->]; tauto. }
  left. by eexists.
Qed.

(** When the project field cannot be encoded, the exception of
    [quote_plus] leaves the function from the state of the call. *)
Lemma grant_encoding_fails g f s e :
  project_from_field (project f) = Exc e ->
  add_conditional_binding g f s = Raise e s.
Proof.
  intros Hp. unfold add_conditional_binding. by rewrite Hp.
Qed.

(** Every run of [add_conditional_binding] on a field that is encoded: no
    project; a refused fetch; an exception between the fetch and the
    write; or the write, of the fetched policy with the new binding at the
    end of its bindings. *)
Lemma grant_paths g f s p :
  project_from_field (project f) = Val p ->
  let fetch := respond g (calls s) (get_policy_request p) in
  let s0 := sent (get_policy_request p) s in
  (p = ""
   /\ add_conditional_binding g f s
      = Ok tt (flashed "Could not find project ID in provided URL" "error" s))
  \/ (p <> "" /\ status_code fetch <> 200
      /\ exists message,
           add_conditional_binding g f s = Ok tt (flashed message "error" s0))
  \/ (p <> "" /\ status_code fetch = 200
      /\ exists e,
           add_conditional_binding g f s = Raise e s0
           /\ (build_exn e
               \/ (e = KeyError "account" /\ session s !! "account" = None)))
  \/ (p <> "" /\ status_code fetch = 200
      /\ exists pol bs expiry acct,
           json_body fetch = Some (JObj pol)
           /\ pol !! "bindings" = Some (JArr bs)
           /\ expiry_at (clock s) (period f) = Val expiry
           /\ session s !! "account" = Some acct
           /\ let written := written_policy pol bs (new_binding expiry acct f) in
              add_conditional_binding g f s
              = report_write (respond g (calls s0) (set_policy_request p written))
                  (sent (set_policy_request p written) s0)).
Proof.
  intros Hpf fetch s0.
  assert (sent (get_policy_request p) s = s0) as Hs0 by reflexivity.
  assert (respond g (calls s) (get_policy_request p) = fetch) as Hfetch by reflexivity.
  clearbody fetch s0.
  destruct (decide (p = "")) as [Hp|Hp].
  { left. split; [done|]. subst p. by apply grant_no_project. }
  right.
  destruct (decide (status_code fetch = 200)) as [Hst|Hst].
  2: { left. split; [done|]. split; [done|]. eexists. subst s0 fetch.
       by apply (grant_fetch_failed g f s p). }
  right.
  assert (add_conditional_binding g f s
          = (let* c := read_clock in
             let* expiry := lift (expiry_at c (period f)) in
             let* policy := resp_json fetch in
             let* bindings := lift (getitem policy "bindings") in
             let* append_to := lift (append bindings) in
             let* account := session_get "account" in
             let new_policy : gmap string json :=
               {[ "policy" := with_item policy "bindings"
                                (append_to (new_binding expiry account f)) ]} in
             let* result := send g (Post (CLOUD_RM +:+ "/" +:+ p +:+ ":setIamPolicy")
                                         (Some (JObj new_policy))) in
             report_write result) s0) as ->.
  { unfold add_conditional_binding. rewrite Hpf.
    unfold bind at 1, lift at 1. cbv beta iota.
    rewrite bool_decide_false by done.
    unfold bind at 1. unfold send at 1. fold (get_policy_request p).
    rewrite Hfetch. apply Z.eqb_eq in Hst. rewrite Hst. cbn [negb].
    unfold sent in Hs0. rewrite Hs0. reflexivity. }
  subst s0. unfold build_exn. run.
  destruct (expiry_at (clock s) (period f)) as [expiry|e] eqn:Hexp; run.
  2: { left. split; [done|]. split; [done|]. exists e.
       apply expiry_at_exn in Hexp as ->. split; [done|]. tauto. }
  destruct (json_body fetch) as [body|] eqn:Hbody; run.
  2: { left. split; [done|]. split; [done|]. exists ValueError. split; [done|]. tauto. }
  destruct body as [| | | | |pol]; run;
    try (left; split; [done|]; split; [done|]; exists TypeError; split; [done|]; tauto).
  destruct (pol !! "bindings") as [b|] eqn:Hpol; run.
  2: { left. split; [done|]. split; [done|]. exists (KeyError "bindings").
       split; [done|]. tauto. }
  destruct b as [| | | |bs|]; run;
    try (left; split; [done|]; split; [done|]; exists AttributeError; split; [done|]; tauto).
  destruct (session s !! "account") as [acct|] eqn:Hacct; run.
  2: { left. split; [done|]. split; [done|]. exists (KeyError "account").
       split; [done|]. by right. }
  right. split; [done|]. split; [done|].
  exists pol, bs, expiry, acct. repeat (split; [done|]).
  cbv zeta. subst fetch. reflexivity.
Qed.

Lemma foldl_insert_elem (pairs : list (string * string)) :
  forall (m : gmap string string) k x,
    foldl (fun m p => <[p.1 := p.2]> m) m pairs !! k = Some x ->
    m !! k = Some x \/ (k, x) ∈ pairs.
Proof.
  induction pairs as [|[k' x'] pairs IH]; intros m k x Hlook; cbn [foldl] in Hlook.
  { by left. }
  destruct (IH _ _ _ Hlook) as [Hm|Hin].
  - cbn [fst snd] in Hm. destruct (decide (k' = k)) as [->|Hne].
    + rewrite lookup_insert_eq in Hm. injection Hm as ->. right. apply list_elem_of_here.
    + rewrite lookup_insert_ne in Hm by done. by left.
  - right. by apply list_elem_of_further.
Qed.

(** A value looked up in [dict(pairs)] is that of a pair of the list. *)
Lemma dict_lookup_elem (pairs : list (string * string)) k x :
  dict pairs !! k = Some x -> (k, x) ∈ pairs.
Proof.
  intros Hlook. destruct (foldl_insert_elem pairs ∅ k x Hlook) as [Hm|Hin]; [|done].
  by rewrite lookup_empty in Hm.
Qed.

(** A project ID that is not empty is the encoding of the field itself or
    of a [project] parameter of its query. *)
Lemma project_id_source (value p : string) :
  project_from_field value = Val p -> p <> "" ->
  exists x,
    (x = value \/ ("project", x) ∈ parse_qsl (urlparse_query value))
    /\ quote_plus x = Val p.
Proof.
  unfold project_from_field. destruct (url value).
  - destruct (dict _ !! "project") as [x|] eqn:Hlook.
    + intros Hq _. exists x. split; [|done]. right. by apply dict_lookup_elem.
    + intros [= <-] Hne. done.
  - intros Hq _. exists value. split; [by left|done].
Qed.

(** X9. When the fetch and the write are both answered with 200, the
    function flashes the one message of success, of category [success],
    after exactly two requests: the fetch and the write of the fetched
    policy with the new binding at the end of its bindings. *)
Theorem grant_reports_success g f s p pol bs expiry acct :
  project_from_field (project f) = Val p -> p <> "" ->
  status_code (respond g (calls s) (get_policy_request p)) = 200 ->
  json_body (respond g (calls s) (get_policy_request p)) = Some (JObj pol) ->
  pol !! "bindings" = Some (JArr bs) ->
  expiry_at (clock s) (period f) = Val expiry ->
  session s !! "account" = Some acct ->
  let written := written_policy pol bs (new_binding expiry acct f) in
  status_code (respond g (calls s ++ [get_policy_request p])
                 (set_policy_request p written)) = 200 ->
  add_conditional_binding g f s
  = Ok tt (flashed "Great success, they'll have access in a minute!" "success"
             (sent (set_policy_request p written) (sent (get_policy_request p) s))).
Proof.
  intros Hp Hne Hst Hbody Hb Hexp Hacct written Hst2.
  rewrite (grant_reaches_write g f s p pol bs expiry acct) by done.
  fold written. unfold report_write.
  apply Z.eqb_eq in Hst2. by rewrite Hst2.
Qed.

(** X10. Whatever the remote side answers, [add_conditional_binding]
    leaves the session and the clock as they were; it flashes exactly one
    message when it returns and none when an exception leaves it; and the
    requests it sends are none, the fetch alone, or the fetch followed by
    one write, which is sent only after a fetch answered with 200 and
    carries the fetched policy with one binding put after the fetched
    bindings. *)
Theorem grant_footprint g f s :
  let o := add_conditional_binding g f s in
  session (final o) = session s
  /\ clock (final o) = clock s
  /\ match o with
     | Ok _ s' => exists message category,
                    flashes s' = flashes s ++ [(message, category)]
     | Raise _ s' => flashes s' = flashes s
     end
  /\ (calls_of o = calls s
      \/ exists p,
           project_from_field (project f) = Val p
           /\ let fetch := respond g (calls s) (get_policy_request p) in
              (calls_of o = calls s ++ [get_policy_request p]
               \/ exists pol bs b,
                    status_code fetch = 200
                    /\ json_body fetch = Some (JObj pol)
                    /\ pol !! "bindings" = Some (JArr bs)
                    /\ calls_of o
                       = calls s ++ [get_policy_request p;
                                     set_policy_request p (written_policy pol bs b)])).
Proof.
  cbv zeta.
  destruct (project_from_field (project f)) as [p|e] eqn:Hpf.
  2: { rewrite (grant_encoding_fails g f s e Hpf). cbn [final calls_of].
       split; [done|]. split; [done|]. split; [done|]. by left. }
  pose proof (grant_paths g f s p Hpf) as Hpaths. cbv zeta in Hpaths.
  destruct Hpaths
    as [(_ & ->) | [(_ & _ & msg & ->) | [(_ & _ & e & -> & _)
        | (_ & Hst & pol & bs & expiry & acct & Hbody & Hb & _ & _ & ->)]]].
  - cbn [final flashed session clock calls_of calls flashes].
    split; [done|]. split; [done|]. split; [by eexists _, _|]. by left.
  - cbn [final flashed sent session clock calls_of calls flashes].
    split; [done|]. split; [done|]. split; [by eexists _, _|].
    right. exists p. split; [done|]. by left.
  - cbn [final sent session clock calls_of calls flashes].
    split; [done|]. split; [done|]. split; [done|].
    right. exists p. split; [done|]. by left.
  - set (written := written_policy pol bs (new_binding expiry acct f)).
    set (s2 := sent (set_policy_request p written) (sent (get_policy_request p) s)).
    set (answer := respond g _ _).
    assert (calls s2 = calls s ++ [get_policy_request p; set_policy_request p written])
      as Hcalls by (cbn [s2 sent calls]; by rewrite <- app_assoc).
    destruct (report_write_paths answer s2)
      as [(_ & ->) | (_ & [(msg & ->) | (e & _ & ->)])];
      cbn [final flashed session clock calls_of calls flashes];
      (split; [done|]); (split; [done|]);
      (split; [try done; by eexists _, _|]);
      right; exists p; (split; [done|]);
      right; exists pol, bs, (new_binding expiry acct f); done.
Qed.

(** X11. Every request [add_conditional_binding] sends is a POST to
    [getIamPolicy] or [setIamPolicy] of the resource manager, for a project
    ID that is not empty and that came out of [quote_plus], applied to the
    field itself or to a [project] parameter of its query: the field never
    reaches a request unencoded. *)
Theorem grant_targets_are_encoded g f s :
  exists new,
    calls_of (add_conditional_binding g f s) = calls s ++ new
    /\ Forall (encoded_target (project f)) new.
Proof.
  pose proof (grant_footprint g f s) as (_ & _ & _ & Hcalls). cbv zeta in Hcalls.
  destruct Hcalls as [-> | (p & Hpf & Hcalls)].
  { exists []. split; [by rewrite app_nil_r|constructor]. }
  destruct (decide (p = "")) as [Hp|Hp].
  { exists []. split; [|constructor]. subst p.
    rewrite grant_no_project by done. cbn [calls_of flashed calls].
    by rewrite app_nil_r. }
  destruct (project_id_source (project f) p Hpf Hp) as (x & Hx & Hq).
  assert (forall method body,
            method = ":getIamPolicy" \/ method = ":setIamPolicy" ->
            encoded_target (project f)
              (Post (CLOUD_RM +:+ "/" +:+ p +:+ method) body))
    as Htarget.
  { intros method body Hm. exists x, p, method, body. done. }
  destruct Hcalls as [-> | (pol & bs & b & _ & _ & _ & ->)].
  - eexists. split; [reflexivity|]. constructor; [|constructor].
    apply Htarget. by left.
  - eexists. split; [reflexivity|]. constructor; [|constructor; [|constructor]].
    + apply Htarget. by left.
    + apply Htarget. by right.
Qed.

(** X12. Called on a session without [account], after a fetch answered
    with 200 whose policy holds a list of bindings, the function raises
    [KeyError] for [account] while it builds the binding: the fetch has
    been sent, the write has not, and nothing is flashed. *)
Theorem grant_without_account g f s p pol bs expiry :
  project_from_field (project f) = Val p -> p <> "" ->
  status_code (respond g (calls s) (get_policy_request p)) = 200 ->
  json_body (respond g (calls s) (get_policy_request p)) = Some (JObj pol) ->
  pol !! "bindings" = Some (JArr bs) ->
  expiry_at (clock s) (period f) = Val expiry ->
  session s !! "account" = None ->
  add_conditional_binding g f s
  = Raise (KeyError "account") (sent (get_policy_request p) s).
Proof.
  intros Hp Hne Hst Hbody Hb Hexp Hacct.
  unfold add_conditional_binding. rewrite Hp.
  unfold bind at 1, lift at 1. cbv beta iota.
  rewrite bool_decide_false by done. run.
  fold (get_policy_request p). apply Z.eqb_eq in Hst. rewrite Hst. run.
  rewrite Hexp. run. rewrite Hbody. run. rewrite Hb. run. by rewrite Hacct.
Qed.



End Grantor.

(** ** The further properties on the scenarios *)

Lemma fresh_lacks_identity : ~ holds_identity (session Scenario.fresh).
Proof. intros [[x Hx] _]. vm_compute in Hx. discriminate. Qed.

Lemma home_is_other : other_email (JObj Corner.home_entry).
Proof. exists (JStr "home"). split; vm_compute; reflexivity. Qed.

(** X1 on the fresh session of an allowed caller. *)
Lemma wrapped_runs_only_when_allowed_witness :
  (exists s1 d,
     authorized Scenario.smooth = true
     /\ gate_frame Scenario.fresh s1
     /\ holds_identity (session s1)
     /\ session s1 !! "domain" = Some (JStr d)
     /\ d ∈ allowlist Scenario.acme_only
     /\ forall R (func : M R),
          login_required Scenario.smooth Scenario.acme_only func Scenario.fresh
          = bind func (fun r => ret (Returned r)) s1)
  /\ (exists o : outcome (route Empty_set),
        forall R (func : M R),
          login_required Scenario.smooth Scenario.others_only func Scenario.fresh
          = stopped o).
Proof.
  split.
  - destruct (wrapped_runs_only_when_allowed Scenario.smooth Scenario.acme_only
                Scenario.fresh) as [Hrun | (o & Ho)]; [exact Hrun|].
    exfalso. specialize (Ho unit Scenario.idle).
    destruct o as [[endpoint|template status|[]] s0|e s0];
      vm_compute in Ho; discriminate.
  - destruct (wrapped_runs_only_when_allowed Scenario.smooth Scenario.others_only
                Scenario.fresh) as [(s1 & d & _ & _ & _ & _ & _ & Hrun) | Hstop];
      [|exact Hstop].
    exfalso. specialize (Hrun unit Scenario.idle).
    vm_compute in Hrun. discriminate.
Defined.

(** X2 on a profile request answered with 403. *)
Lemma profile_fetch_refused_witness :
  login_required Corner.no_profile Scenario.acme_only Scenario.idle Scenario.fresh
  = Ok (Rendered "sorry.html.j2" 403)
       (flashed "Could not get your profile information from Google" "error"
                (sent profile_request Scenario.fresh)).
Proof.
  apply (profile_fetch_refused Corner.no_profile Scenario.acme_only Scenario.idle
           Scenario.fresh).
  - reflexivity.
  - exact fresh_lacks_identity.
  - simpl. discriminate.
Defined.

(** X3 on a profile whose domain is null. *)
Lemma profile_without_domain_witness :
  login_required Corner.null_domain Scenario.acme_only Scenario.idle Scenario.fresh
  = Ok (Rendered "sorry.html.j2" 403)
       (flashed "The response from the Google Plus API is missing a required field: domain"
                "error" (sent profile_request Scenario.fresh)).
Proof.
  apply (profile_without_domain Corner.null_domain Scenario.acme_only Scenario.idle
           Scenario.fresh Corner.null_domain_fields).
  - reflexivity.
  - exact fresh_lacks_identity.
  - reflexivity.
  - reflexivity.
  - right. vm_compute. reflexivity.
Defined.

Lemma crowded_names :
  profile_names (JObj Corner.crowded_fields) (JStr "acme.com") (JStr "a@acme.com").
Proof.
  exists Corner.crowded_fields,
    (JArr [JObj Corner.home_entry; JObj Scenario.account_entry;
           JObj Corner.second_account_entry; JNum 0]),
    [JObj Corner.home_entry], Scenario.account_entry,
    [JObj Corner.second_account_entry; JNum 0].
  split; [reflexivity|]. split; [vm_compute; reflexivity|]. split; [discriminate|].
  split; [vm_compute; reflexivity|]. split; [reflexivity|].
  split; [repeat constructor; exact home_is_other|].
  split; vm_compute; reflexivity.
Qed.

(** X4 on a profile with an entry of another type, two entries of type
    [account] and a number: the first account is the one stored. *)
Lemma fetched_identity_is_cached_witness :
  exists s1,
    s1 = stored "account" (JStr "a@acme.com")
           (stored "domain" (JStr "acme.com") (sent profile_request Scenario.fresh))
    /\ session s1 !! "domain" = Some (JStr "acme.com")
    /\ session s1 !! "account" = Some (JStr "a@acme.com")
    /\ login_required Corner.crowded Scenario.others_only Scenario.idle Scenario.fresh
       = (if check_valid_domain (JStr "acme.com") (allowlist Scenario.others_only)
          then bind Scenario.idle (fun r => ret (Returned r)) s1
          else Ok (Rendered "sorry.html.j2" 403)
                  (flashed "The account you are logged in with does not match the configured whitelist"
                           "error" s1))
    /\ forall g' config' s2,
         session s2 = session s1 ->
         calls_of (login_required g' config' (ret tt) s2) = calls s2.
Proof.
  apply (fetched_identity_is_cached Corner.crowded Scenario.others_only Scenario.idle
           Scenario.fresh (JObj Corner.crowded_fields)).
  - reflexivity.
  - exact fresh_lacks_identity.
  - reflexivity.
  - reflexivity.
  - exact crowded_names.
Defined.

(** X5 on a session that holds a key of another part of the application
    and a message flashed before. *)
Lemma gate_touches_only_its_own_witness :
  exists s1,
    gate_frame Corner.with_csrf s1
    /\ (calls s1 <> calls Corner.with_csrf ->
        authorized Scenario.smooth = true /\ ~ holds_identity (session Corner.with_csrf))
    /\ (login_required Scenario.smooth Scenario.acme_only Scenario.idle Corner.with_csrf
        = Ok (Redirect "google.login") s1
        \/ (exists message,
              login_required Scenario.smooth Scenario.acme_only Scenario.idle Corner.with_csrf
              = Ok (Rendered "sorry.html.j2" 403) (flashed message "error" s1))
        \/ (exists e,
              login_required Scenario.smooth Scenario.acme_only Scenario.idle Corner.with_csrf
              = Raise e s1)
        \/ login_required Scenario.smooth Scenario.acme_only Scenario.idle Corner.with_csrf
           = bind Scenario.idle (fun r => ret (Returned r)) s1).
Proof.
  apply (gate_touches_only_its_own Scenario.smooth Scenario.acme_only Scenario.idle
           Corner.with_csrf).
Defined.

(** X6 on the fresh session. *)
Lemma session_order_kept_witness :
  session_inv (session (stored "account" (JStr "a@acme.com")
                          (stored "domain" (JStr "acme.com")
                             (sent profile_request Scenario.fresh))))
  /\ (~ holds_identity (session (stored "account" (JStr "a@acme.com")
                                   (stored "domain" (JStr "acme.com")
                                      (sent profile_request Scenario.fresh))))
      <-> session (stored "account" (JStr "a@acme.com")
                     (stored "domain" (JStr "acme.com")
                        (sent profile_request Scenario.fresh))) !! "account" = None).
Proof.
  apply (session_order_kept Scenario.smooth Scenario.acme_only Scenario.idle
           Scenario.fresh (Returned tt)).
  - intros s0 r0 s0' Hidle Hinv. unfold Scenario.idle, ret in Hidle.
    injection Hidle as _ <-. exact Hinv.
  - intros [x Hx]. vm_compute in Hx. discriminate.
  - vm_compute. reflexivity.
Defined.

Lemma numeric_identified :
  identified Corner.numeric_domain Scenario.fresh (JNum 7)
    (stored "account" (JStr "a@acme.com")
       (stored "domain" (JNum 7) (sent profile_request Scenario.fresh))).
Proof.
  apply (identified_fetched _ _ (JObj Corner.numeric_domain_fields)).
  - exact fresh_lacks_identity.
  - reflexivity.
  - reflexivity.
  - exists Corner.numeric_domain_fields, (JArr [JObj Scenario.account_entry]), [],
      Scenario.account_entry, [].
    split; [reflexivity|]. split; [vm_compute; reflexivity|]. split; [discriminate|].
    split; [vm_compute; reflexivity|]. split; [reflexivity|].
    split; [constructor|]. split; vm_compute; reflexivity.
Qed.

(** X7 on a profile whose domain is the number 7. *)
Lemma non_string_domain_refused_witness :
  login_required Corner.numeric_domain Scenario.acme_only Scenario.idle Scenario.fresh
  = Ok (Rendered "sorry.html.j2" 403)
       (flashed "The account you are logged in with does not match the configured whitelist"
                "error"
                (stored "account" (JStr "a@acme.com")
                   (stored "domain" (JNum 7) (sent profile_request Scenario.fresh)))).
Proof.
  apply (non_string_domain_refused Corner.numeric_domain Scenario.acme_only
           Scenario.idle Scenario.fresh (JNum 7)).
  - reflexivity.
  - exact numeric_identified.
  - discriminate.
Defined.

(** X8 on a profile whose second entry has no [type] and whose third is of
    type [account]. *)
Lemma unreadable_entry_raises_witness :
  login_required Corner.unreadable_first Scenario.acme_only Scenario.idle Scenario.fresh
  = Raise (KeyError "type")
      (stored "domain" (JStr "acme.com") (sent profile_request Scenario.fresh)).
Proof.
  apply (unreadable_entry_raises Corner.unreadable_first Scenario.acme_only
           Scenario.idle Scenario.fresh Corner.unreadable_first_fields
           (JStr "acme.com")
           (JArr [JObj Corner.home_entry; JObj Scenario.untyped_entry;
                  JObj Scenario.account_entry])
           [JObj Corner.home_entry] (JObj Scenario.untyped_entry)
           [JObj Scenario.account_entry]).
  - reflexivity.
  - exact fresh_lacks_identity.
  - reflexivity.
  - reflexivity.
  - vm_compute. reflexivity.
  - discriminate.
  - vm_compute. reflexivity.
  - reflexivity.
  - repeat constructor. exact home_is_other.
  - left. vm_compute. reflexivity.
Defined.

(** X9 on the scenario in which all goes well. *)
Lemma grant_reports_success_witness :
  add_conditional_binding Scenario.smooth Scenario.request_form Scenario.signed_in
  = Ok tt
      (flashed "Great success, they'll have access in a minute!" "success"
         (sent (set_policy_request "my-proj"
                  (written_policy Scenario.policy_fields [Scenario.owner_binding]
                     (new_binding "2019-01-01T00:15:00+00:00" (JStr "a@acme.com")
                        Scenario.request_form)))
            (sent (get_policy_request "my-proj") Scenario.signed_in))).
Proof.
  apply (grant_reports_success Scenario.smooth Scenario.request_form
           Scenario.signed_in "my-proj" Scenario.policy_fields
           [Scenario.owner_binding] "2019-01-01T00:15:00+00:00" (JStr "a@acme.com")).
  - reflexivity.
  - discriminate.
  - reflexivity.
  - reflexivity.
  - vm_compute. reflexivity.
  - vm_compute. reflexivity.
  - vm_compute. reflexivity.
  - reflexivity.
Defined.

(** X12 on a session that has not met the gate. *)
Lemma grant_without_account_witness :
  add_conditional_binding Scenario.smooth Scenario.request_form Scenario.fresh
  = Raise (KeyError "account") (sent (get_policy_request "my-proj") Scenario.fresh).
Proof.
  apply (grant_without_account Scenario.smooth Scenario.request_form Scenario.fresh
           "my-proj" Scenario.policy_fields [Scenario.owner_binding]
           "2019-01-01T00:15:00+00:00").
  - reflexivity.
  - discriminate.
  - reflexivity.
  - reflexivity.
  - vm_compute. reflexivity.
  - vm_compute. reflexivity.
  - vm_compute. reflexivity.
Defined.


